(** * Personal finance tracker: ledger derivation, edit history, import and export

    A shallow embedding of the application's Python sources
    ([main_window.py], [components/Charts.py], [components/PdfExporter.py],
    [components/EditCellCommand.py], [components/CsvReader.py]) together with
    the properties its specification states about them.

    Conventions of the embedding:
    - what the program takes from numpy, pandas and matplotlib is an
      interface ([Libraries]): the values of a numeric column with their
      addition, negation, conversion to float and sums, the sorting routine
      behind [sort_values], and whether [ax.pie] refuses a series. No law of
      arithmetic is assumed of it, and of the sorting routine only what
      [sorts] states: the theorems hold for float64 with its rounding, for
      int64, and for a sort that does not keep equal keys in their order;
    - text is [string]; Python's [str.lower] is modelled on ASCII letters,
      which is all that a comparison with the literal ['income'] can observe;
    - pandas' parsers ([to_numeric], [to_datetime]) are parameters of the
      development: every theorem holds for every parser, and small sample
      parsers instantiate them for the worked examples;
    - Python exceptions are a result type; Qt's table widget is a finite map
      from cell positions to item texts and its [itemChanged] signal is a
      call of the connected slot. *)

From stdpp Require Import gmap strings list sorting pretty.

Local Open Scope Z_scope.

(** ** Text *)

(** [str.lower] on one character: the ASCII capitals move to lower case. *)
Definition lower_char (c : Ascii.ascii) : Ascii.ascii :=
  let n := Ascii.N_of_ascii c in
  if ((65 <=? n) && (n <=? 90))%N then Ascii.ascii_of_N (n + 32) else c.

(** [str.lower]. *)
Fixpoint lower (s : string) : string :=
  match s with
  | EmptyString => EmptyString
  | String c s' => String (lower_char c) (lower s')
  end.

(** Equality of two characters up to the case of a letter, stated without
    [lower]: the characters are equal, or they are the two cases of one
    letter. *)
Definition is_lower_letter (c : Ascii.ascii) : bool :=
  let n := Ascii.N_of_ascii c in ((97 <=? n) && (n <=? 122))%N.

Definition char_eq_ignore_case (a b : Ascii.ascii) : bool :=
  Ascii.eqb a b
  || (is_lower_letter a && (Ascii.N_of_ascii b =? Ascii.N_of_ascii a - 32)%N)
  || (is_lower_letter b && (Ascii.N_of_ascii a =? Ascii.N_of_ascii b - 32)%N).

(** Case-insensitive equality of two texts, character by character. *)
Fixpoint eq_ignore_case (s t : string) : bool :=
  match s, t with
  | EmptyString, EmptyString => true
  | String a s', String b t' => char_eq_ignore_case a b && eq_ignore_case s' t'
  | _, _ => false
  end.

(** ** Exceptions *)

Inductive exn := AttributeError | KeyError | ValueError | IOError | RuntimeError.

Inductive result (A : Type) :=
| Ok (a : A)
| Err (e : exn).
Arguments Ok {A} a.
Arguments Err {A} e.

(** ** What the program takes from its libraries *)

(** The values of a numeric column ([num]: the int64 or float64 values that
    [pd.to_numeric] and [pd.read_csv] produce) and the operations the
    sources apply to them, the sorting routine of numpy behind
    [sort_values] (the default [kind='quicksort'], on the timestamps of a
    date column and on the values of a numeric column), and matplotlib's
    [ax.pie], which raises on some series. *)
Class Libraries := {
  num : Type;
  num_eq_dec :: EqDecision num;
  (** [a + b], as [cumsum] adds. *)
  add : num → num → num;
  (** [-a]. *)
  neg : num → num;
  (** [astype(float)] on one value. *)
  astype_float : num → num;
  (** [GroupBy.sum] on the values of one group, in their order. *)
  GroupBy_sum : list num → num;
  (** [Series.sum]. *)
  Series_sum : list num → num;
  (** [str(x)]. *)
  num_str : num → string;
  (** The order in which the sorting routine arranges numbers. *)
  num_le : num → num → Prop;
  (** [ndarray.argsort(kind='quicksort')]: the positions of the keys in
      the order the routine puts them in. *)
  argsort_datetime : list Z → list nat;
  argsort_num : list num → list nat;
  (** Whether [ax.pie(series, labels=series.index, ...)] raises. *)
  ax_pie_raises : list (string * num) → option exn
}.

(** ** Typed rows *)

(** One row of the data frame that [_table_to_dataframe] hands to the charts
    and to the exporter, projected on the four required columns: the three
    text columns as they stand in the grid and the coerced [Amount]. *)
Record Row `{Libraries} := mkRow {
  Description : string;
  Date : string;
  Type_ : string;
  Amount : num
}.
Arguments mkRow {_} _ _ _ _.

Global Instance Row_eq_dec `{Libraries} : EqDecision Row.
Proof. solve_decision. Defined.

(** The lambda of both balance charts:
    [row['Amount'] if row['Type'].lower() == 'income' else -row['Amount']],
    on a row and on its amount. *)
Definition signed (type : string) `{Libraries} (amount : num) : num :=
  if String.eqb (lower type) "income" then amount else neg amount.

Definition signed_amount `{Libraries} (row : Row) : num :=
  signed (Type_ row) (Amount row).

(** ** The pandas operations the sources call *)

(** What [pd.to_datetime] makes of one text: a timestamp, the missing
    value [NaT] (the empty text and the like), or no date at all. *)
Inductive parsed_date :=
| Timestamp (t : Z)
| NaT
| Unparseable.

Module Pandas.

(** [pd.to_datetime(col, errors='coerce')]: what is no date becomes the
    missing value. *)
Definition to_datetime_coerce (parse : string → parsed_date) (s : string) : option Z :=
  match parse s with
  | Timestamp t => Some t
  | NaT | Unparseable => None
  end.

(** [pd.to_datetime(col)] (errors='raise'): one text that is no date
    makes the whole call raise; missing values stay missing. *)
Fixpoint to_datetime (parse : string → parsed_date) (col : list string)
  : result (list (option Z)) :=
  match col with
  | [] => Ok []
  | s :: col' =>
      match parse s with
      | Unparseable => Err ValueError
      | Timestamp t =>
          match to_datetime parse col' with
          | Ok r => Ok (Some t :: r)
          | Err e => Err e
          end
      | NaT =>
          match to_datetime parse col' with
          | Ok r => Ok (None :: r)
          | Err e => Err e
          end
      end
  end.

(** [rows.iloc[indexer]]: the rows at the positions of an indexer. *)
Definition iloc {A : Type} (rows : list A) (indexer : list nat) : list A :=
  omap (λ i, rows !! i) indexer.

Section Pandas.
Context `{Libraries}.

(** [sort_values(by)], ascending, as [nargsort] does it: the rows with a
    key are arranged by the sorting routine applied to their keys, then
    come the rows whose key is missing, in their order
    (na_position='last'). *)
Definition sort_values {A : Type} (key : A → option Z) (l : list A) : list A :=
  let present := filter (λ x, is_Some (key x)) l in
  iloc present (argsort_datetime ((λ x, default 0 (key x)) <$> present))
  ++ filter (λ x, ¬ is_Some (key x)) l.

(** [sort_values(ascending=False)] on a series of numbers: [nargsort]
    reverses the values, applies the sorting routine and reverses the
    outcome. *)
Definition sort_values_descending {A : Type} (key : A → num) (l : list A) : list A :=
  reverse (iloc (reverse l) (argsort_num (key <$> reverse l))).

(** [Series.cumsum]: each value added to the running total before it. *)
Fixpoint cumsum_from (acc : num) (l : list num) : list num :=
  match l with
  | [] => []
  | x :: l' => add acc x :: cumsum_from (add acc x) l'
  end.

Definition cumsum (l : list num) : list num :=
  match l with
  | [] => []
  | x :: l' => x :: cumsum_from x l'
  end.
End Pandas.

(** The keys of a [groupby]: each value once, in ascending order
    (sort=True), texts compared code point by code point. *)
Fixpoint insert_key (k : string) (keys : list string) : list string :=
  match keys with
  | [] => [k]
  | k' :: keys' =>
      match String.compare k k' with
      | Lt => k :: k' :: keys'
      | Eq => k' :: keys'
      | Gt => k' :: insert_key k keys'
      end
  end.

Definition group_keys (col : list string) : list string :=
  foldr insert_key [] col.

End Pandas.

(** The working frame of the balance charts: a typed row with the two
    columns the charts add to it, [SignedAmount] and the parsed [Date]. *)
Record LineRow `{Libraries} := mkLineRow {
  source : Row;
  SignedAmount : num;
  ParsedDate : option Z
}.
Arguments mkLineRow {_} _ _ _.

(** The plotted series [(df['Date'], df['Balance'])]. *)
Definition plotted `{Libraries} (df : list LineRow) : list (option Z * num) :=
  zip (ParsedDate <$> df) (Pandas.cumsum (SignedAmount <$> df)).

(** The groups of [df.groupby('Description')['Amount']]: one entry per
    description, in key order, with the amounts of its rows in their
    order. *)
Definition groupby_Description `{Libraries} (df : list Row) : list (string * list num) :=
  (λ k, (k, Amount <$> filter (λ row, Description row = k) df))
    <$> Pandas.group_keys (Description <$> df).

(** ** [components/Charts.py] *)

Module Charts.
Section Charts.
Context `{Libraries}.
Variable parse_datetime : string → parsed_date.

(** [_create_pie_chart], the series handed to [ax.pie]:
    [[
    type_sums = (df.groupby('Description')['Amount'].sum()
                   .sort_values(ascending=False).head(10))
    ]] *)
Definition type_sums (df : list Row) : list (string * num) :=
  take 10 (Pandas.sort_values_descending snd
             ((λ g, (g.1, GroupBy_sum g.2)) <$> groupby_Description df)).

(** [_create_pie_chart]: [ax.pie(type_sums, labels=type_sums.index, ...)]
    raises on some series (a negative sum among them). *)
Definition _create_pie_chart (df : list Row) : result (list (string * num)) :=
  match ax_pie_raises (type_sums df) with
  | Some e => Err e
  | None => Ok (type_sums df)
  end.

(** [_create_line_chart], the frame before the plot:
    [[
    df['SignedAmount'] = df.apply(lambda row: ..., axis=1)
    df['Date'] = pd.to_datetime(df['Date'], errors='coerce')
    df = df.dropna(subset=['Date']).sort_values('Date')
    ]] *)
Definition line_chart_frame (df : list Row) : list LineRow :=
  let df := (λ row, mkLineRow row (signed_amount row)
                      (Pandas.to_datetime_coerce parse_datetime (Date row))) <$> df in
  let df := filter (λ r, is_Some (ParsedDate r)) df in
  Pandas.sort_values ParsedDate df.

(** [_create_line_chart]: [df['Balance'] = df['SignedAmount'].cumsum()]
    and the series that is plotted. *)
Definition _create_line_chart (df : list Row) : list (option Z * num) :=
  plotted (line_chart_frame df).

(** [Charts.__init__]: the pie chart is made first, then the line chart. *)
Definition __init__ (df : list Row)
  : result (list (string * num) * list (option Z * num)) :=
  match _create_pie_chart df with
  | Err e => Err e
  | Ok pie => Ok (pie, _create_line_chart df)
  end.
End Charts.
End Charts.

(** ** [components/PdfExporter.py]: the data of the two charts *)

Module PdfCharts.
Section PdfCharts.
Context `{Libraries}.
Variable parse_datetime : string → parsed_date.

(** The series of [PdfExporter._create_pie_chart],
    [[
    pie_data = df.groupby('Description')['Amount'].apply(lambda x: x.astype(float).sum())
    pie_data = pie_data.sort_values(ascending=False).head(10)
    ]] *)
Definition pie_data (df : list Row) : list (string * num) :=
  take 10 (Pandas.sort_values_descending snd
             ((λ g, (g.1, Series_sum (astype_float <$> g.2))) <$> groupby_Description df)).

(** The frame of [PdfExporter._create_time_chart],
    [[
    df_time['Amount'] = df_time['Amount'].astype(float)
    df_time['SignedAmount'] = df_time.apply(lambda row: ..., axis=1)
    df_time['Date'] = pd.to_datetime(df_time['Date'])
    df_time = df_time.sort_values('Date')
    ]]
    [to_datetime] raises here on a text that is no date, and no row is
    dropped: a missing date sorts last. *)
Definition time_chart_frame (df : list Row) : result (list LineRow) :=
  match Pandas.to_datetime parse_datetime (Date <$> df) with
  | Err e => Err e
  | Ok dates =>
      Ok (Pandas.sort_values ParsedDate
            (zip_with (λ row d, mkLineRow row (signed (Type_ row) (astype_float (Amount row))) d)
                      df dates))
  end.

(** [df_time['Balance'] = df_time['SignedAmount'].cumsum()] and the
    series that is plotted. *)
Definition time_chart_data (df : list Row) : result (list (option Z * num)) :=
  match time_chart_frame df with
  | Err e => Err e
  | Ok frame => Ok (plotted frame)
  end.
End PdfCharts.
End PdfCharts.

(** ** A sort and sample parsers for the worked examples *)

Section Sorting.
Context {A : Type} (le : A → A → bool).

(** Insertion in front of the first element that is not smaller. *)
Fixpoint insert_by (x : A) (l : list A) : list A :=
  match l with
  | [] => [x]
  | y :: l' => if le x y then x :: y :: l' else y :: insert_by x l'
  end.

(** Sorting by insertion, from the last element to the first. *)
Fixpoint insertion_sort (l : list A) : list A :=
  match l with
  | [] => []
  | x :: l' => insert_by x (insertion_sort l')
  end.
End Sorting.

(** The positions of the keys in the order an insertion sort puts them
    in: one of the routines that meet [sorts]. *)
Definition insertion_argsort {K : Type} (le : K → K → bool) (keys : list K) : list nat :=
  (λ p, p.1) <$> insertion_sort (λ p q : nat * K, le p.2 q.2) (imap pair keys).

(** A calendar that knows three days of January, the missing value for the
    empty text, and nothing else. *)
Definition sample_datetime (s : string) : parsed_date :=
  if String.eqb s "Jan-1" then Timestamp 1
  else if String.eqb s "Jan-2" then Timestamp 2
  else if String.eqb s "Jan-3" then Timestamp 3
  else if String.eqb s "" then NaT
  else Unparseable.

(** A decimal reader, [to_numeric] on texts like ["42"] and ["-7"]. *)
Fixpoint sample_digits (s : string) (acc : Z) : option Z :=
  match s with
  | EmptyString => Some acc
  | String c s' =>
      let n := Ascii.N_of_ascii c in
      if ((48 <=? n) && (n <=? 57))%N
      then sample_digits s' (10 * acc + (Z.of_N n - 48))
      else None
  end.

Definition sample_numeric (s : string) : option Z :=
  match s with
  | EmptyString => None
  | String c s' =>
      if (Ascii.N_of_ascii c =? 45)%N
      then (if String.eqb s' "" then None else Z.opp <$> sample_digits s' 0)
      else sample_digits s 0
  end.

(** ** Data frames *)

(** A cell of a data frame: a text, a number, or the missing value. *)
Inductive value `{Libraries} :=
| Text (s : string)
| Number (z : num)
| NaN.

Global Instance value_eq_dec `{Libraries} : EqDecision value.
Proof. solve_decision. Defined.

Record DataFrame `{Libraries} := mkFrame {
  columns : list string;
  values : list (list value)
}.
Arguments mkFrame {_} _ _.

(** [str(v)] of a cell, as the import writes it into the grid. *)
Definition str `{Libraries} (v : value) : string :=
  match v with
  | Text s => s
  | Number z => num_str z
  | NaN => "nan"
  end.

(** The positions of a column label. *)
Definition get_indexer (cols : list string) (name : string) : list nat :=
  (λ p, p.1) <$> filter (λ p, p.2 = name) (imap pair cols).

(** [df.dropna(subset=...)]: the rows without a missing value in the
    columns at the positions [subset]. *)
Definition dropna `{Libraries} (subset : list nat) (rows : list (list value))
  : list (list value) :=
  filter (λ r, Forall (λ c, r !! c ≠ Some NaN) subset) rows.

(** What the charts and the exporter read in a row of a frame, given the
    positions of the four required columns. A cell of the wrong kind makes
    [row['Type'].lower()] and the like raise. *)
Definition ledger_row `{Libraries} (d t y a : nat) (r : list value) : option Row :=
  match r !! d, r !! t, r !! y, r !! a with
  | Some (Text description), Some (Text date), Some (Text type), Some (Number amount) =>
      Some (mkRow description date type amount)
  | _, _, _, _ => None
  end.

(** The typed rows of a frame, as the charts and the exporter read them:
    the four columns are looked up by label, and a frame without one of
    them raises [KeyError]. The frames that reach them come from an
    imported grid, whose header the import has validated and whose labels
    [pd.read_csv] has made pairwise different; of a label that stands
    twice the first column is read here. *)
Definition ledger_rows `{Libraries} (df : DataFrame) : result (list Row) :=
  match get_indexer (columns df) "Description", get_indexer (columns df) "Date",
        get_indexer (columns df) "Type", get_indexer (columns df) "Amount" with
  | d :: _, t :: _, y :: _, a :: _ =>
      match mapM (M := option) (ledger_row d t y a) (values df) with
      | Some rows => Ok rows
      | None => Err AttributeError
      end
  | _, _, _, _ => Err KeyError
  end.

(** ** The table widget *)

Record QTableWidget := mkTable {
  rowCount : nat;
  columnCount : nat;
  horizontalHeaderItem : gmap nat string;
  item : gmap (nat * nat) string
}.

(** [item.text() if item else ""]. *)
Definition item_text (table : QTableWidget) (r c : nat) : string :=
  default "" (item table !! (r, c)).

Definition in_range (table : QTableWidget) (r c : nat) : bool :=
  bool_decide (r < rowCount table)%nat && bool_decide (c < columnCount table)%nat.

(** The store behind [QTableWidget.setItem]: a cell outside the grid is
    left alone. *)
Definition store_item (r c : nat) (text : string) (table : QTableWidget) : QTableWidget :=
  if in_range table r c
  then mkTable (rowCount table) (columnCount table) (horizontalHeaderItem table)
               (<[(r, c) := text]> (item table))
  else table.

(** [setRowCount] and [setColumnCount] drop the items that fall outside. *)
Definition setRowCount (n : nat) (table : QTableWidget) : QTableWidget :=
  mkTable n (columnCount table) (horizontalHeaderItem table)
          (filter (λ kv, (kv.1.1 < n)%nat) (item table)).

Definition setColumnCount (m : nat) (table : QTableWidget) : QTableWidget :=
  mkTable (rowCount table) m
          (filter (λ kv, (kv.1 < m)%nat) (horizontalHeaderItem table))
          (filter (λ kv, (kv.1.2 < m)%nat) (item table)).

(** [setHorizontalHeaderLabels]: one label per column, as far as both go. *)
Definition setHorizontalHeaderLabels (labels : list string) (table : QTableWidget)
  : QTableWidget :=
  mkTable (rowCount table) (columnCount table)
          (list_to_map (imap pair (take (columnCount table) labels))
             ∪ horizontalHeaderItem table)
          (item table).

(** The texts of the grid, row by row:
    [[table.item(row, col).text() if table.item(row, col) else "" ...]]. *)
Definition table_texts (table : QTableWidget) : list (list string) :=
  (λ r, (λ c, item_text table r c) <$> seq 0 (columnCount table))
    <$> seq 0 (rowCount table).

(** ** [MainWindow._table_to_dataframe] *)

Section TableToDataframe.
Context `{Libraries}.
Variable to_numeric : string → option num.

(** [pd.to_numeric(col, errors='coerce')] on one cell. *)
Definition to_numeric_coerce (v : value) : value :=
  match v with
  | Text s => match to_numeric s with Some z => Number z | None => NaN end
  | v => v
  end.

(** [df[name] = pd.to_numeric(df[name], errors='coerce')] at position [a]. *)
Definition assign_numeric (a : nat) (rows : list (list value)) : list (list value) :=
  (λ r, alter to_numeric_coerce a r) <$> rows.

(** [[
    if rows == 0: return None
    headers = [tableWidget.horizontalHeaderItem(i).text() for i in range(cols)]
    data = [[... item text or "" ...] for row in range(rows)]
    try:
        df = pd.DataFrame(data, columns=headers)
        df['Amount'] = pd.to_numeric(df['Amount'], errors='coerce')
        df = df.dropna(subset=['Amount', 'Date', 'Type'])
        if df.empty: return None
        return df
    except Exception: return None
    ]]
    A column without a header item raises outside the [try]; a missing
    label, or [Amount] twice, raises inside it. *)
Definition _table_to_dataframe (tableWidget : QTableWidget)
  : result (option DataFrame) :=
  if bool_decide (rowCount tableWidget = 0%nat) then Ok None else
  match mapM (M := option) (λ i, horizontalHeaderItem tableWidget !! i)
             (seq 0 (columnCount tableWidget)) with
  | None => Err AttributeError
  | Some headers =>
      let data := (λ r : list string, Text <$> r) <$> table_texts tableWidget in
      match get_indexer headers "Amount", get_indexer headers "Date",
            get_indexer headers "Type" with
      | [a], _ :: _, _ :: _ =>
          let rows := assign_numeric a data in
          let rows := dropna (a :: get_indexer headers "Date"
                                ++ get_indexer headers "Type") rows in
          if bool_decide (rows = []) then Ok None
          else Ok (Some (mkFrame headers rows))
      | _, _, _ => Ok None
      end
  end.
End TableToDataframe.

(** ** The application state *)

Section State.
Context `{Libraries}.

(** [EditCellCommand]: the snapshot of one cell edit. *)
Record EditCellCommand := mkEdit {
  row : nat;
  col : nat;
  old_value : string;
  new_value : string
}.

(** [QUndoStack]: the commands and the index of the next one to redo. *)
Record QUndoStack := mkStack {
  command_list : list EditCellCommand;
  index : nat
}.

(** The blocks of the exported document, in their order. *)
Inductive Flowable :=
| Paragraph (text : string)
| Spacer
| Table (header : list string) (body : list Row)
| Image (path : string).

(** What a path of the disk holds: a CSV file, an image of one of the two
    charts, a built document, or something that is none of them. *)
Inductive File :=
| CsvFile (df : DataFrame)
| PieImage (series : list (string * num))
| LineImage (series : list (option Z * num))
| Document (elements : list Flowable)
| Blank.

(** A message box that was shown: its title and its text. *)
Record Message := mkMessage {
  title : string;
  text : string
}.

(** The main window with its collaborators: the table widget of the ui, the
    undo stack, the reentrancy flag, the last clicked cell, the file name
    the reader remembers, the status bar, the message boxes shown so far,
    and the files on disk. *)
Record App := mkApp {
  tableWidget : QTableWidget;
  undo_stack : QUndoStack;
  _ignore_change : bool;
  _last_cell : option (nat * nat);
  _last_value : option string;
  current_filename : option string;
  statusBar : string;
  shown : list Message;
  files : gmap string File
}.

Definition set_tableWidget (f : QTableWidget → QTableWidget) (st : App) : App :=
  mkApp (f (tableWidget st)) (undo_stack st) (_ignore_change st) (_last_cell st)
        (_last_value st) (current_filename st) (statusBar st) (shown st) (files st).
Definition set_undo_stack (f : QUndoStack → QUndoStack) (st : App) : App :=
  mkApp (tableWidget st) (f (undo_stack st)) (_ignore_change st) (_last_cell st)
        (_last_value st) (current_filename st) (statusBar st) (shown st) (files st).
Definition set_ignore_change (b : bool) (st : App) : App :=
  mkApp (tableWidget st) (undo_stack st) b (_last_cell st)
        (_last_value st) (current_filename st) (statusBar st) (shown st) (files st).
Definition set_last (cell : nat * nat) (v : string) (st : App) : App :=
  mkApp (tableWidget st) (undo_stack st) (_ignore_change st) (Some cell)
        (Some v) (current_filename st) (statusBar st) (shown st) (files st).
Definition set_current_filename (name : string) (st : App) : App :=
  mkApp (tableWidget st) (undo_stack st) (_ignore_change st) (_last_cell st)
        (_last_value st) (Some name) (statusBar st) (shown st) (files st).
Definition set_statusBar (s : string) (st : App) : App :=
  mkApp (tableWidget st) (undo_stack st) (_ignore_change st) (_last_cell st)
        (_last_value st) (current_filename st) s (shown st) (files st).
Definition add_shown (m : Message) (st : App) : App :=
  mkApp (tableWidget st) (undo_stack st) (_ignore_change st) (_last_cell st)
        (_last_value st) (current_filename st) (statusBar st) (shown st ++ [m]) (files st).
Definition set_files (f : gmap string File → gmap string File) (st : App) : App :=
  mkApp (tableWidget st) (undo_stack st) (_ignore_change st) (_last_cell st)
        (_last_value st) (current_filename st) (statusBar st) (shown st) (f (files st)).

(** ** Statements: state, exceptions, and the depth of signal delivery *)

(** A statement run from a state returns a value and a state, raises and
    leaves the state it reached, or exceeds the depth allowed to nested
    signal deliveries. *)
Inductive outcome (A : Type) :=
| Returned (a : A) (st : App)
| Raised (e : exn) (st : App)
| OutOfFuel.
Arguments Returned {A} a st.
Arguments Raised {A} e st.
Arguments OutOfFuel {A}.

Definition M (A : Type) : Type := App → outcome A.

Global Instance M_ret : MRet M := λ A a st, Returned a st.
Global Instance M_bind : MBind M := λ A B f m st,
  match m st with
  | Returned a st' => f a st'
  | Raised e st' => Raised e st'
  | OutOfFuel => OutOfFuel
  end.

Global Instance M_fmap : FMap M := λ A B f m st,
  match m st with
  | Returned a st' => Returned (f a) st'
  | Raised e st' => Raised e st'
  | OutOfFuel => OutOfFuel
  end.

Definition get_state : M App := λ st, Returned st st.
Definition modify (f : App → App) : M unit := λ st, Returned () (f st).
Definition raise {A} (e : exn) : M A := λ st, Raised e st.

(** [try: body except Exception as e: handler(e)]. *)
Definition try_except {A} (body : M A) (handler : exn → M A) : M A := λ st,
  match body st with
  | Raised e st' => handler e st'
  | o => o
  end.

(** [try: body finally: final]. *)
Definition try_finally {A} (body : M A) (final : M unit) : M A := λ st,
  match body st with
  | Returned a st' =>
      match final st' with
      | Returned _ st'' => Returned a st''
      | Raised e st'' => Raised e st''
      | OutOfFuel => OutOfFuel
      end
  | Raised e st' =>
      match final st' with
      | Returned _ st'' => Raised e st''
      | Raised e' st'' => Raised e' st''
      | OutOfFuel => OutOfFuel
      end
  | OutOfFuel => OutOfFuel
  end.

(** [for x in xs: body(x)]. *)
Fixpoint for_each {X} (xs : list X) (body : X → M unit) : M unit :=
  match xs with
  | [] => mret ()
  | x :: xs' => body x ;; for_each xs' body
  end.

(** [Message(...).show()] and [QMessageBox(...).exec()]. *)
Definition show_Message (title text : string) : M unit :=
  modify (add_shown (mkMessage title text)).

End State.

Arguments mkApp {_} _ _ _ _ _ _ _ _ _.
Arguments Returned {_ A} a st.
Arguments Raised {_ A} e st.
Arguments OutOfFuel {_ A}.

(** ** The toolkit's [setItem] and undo stack *)

Section Toolkit.
Context `{Libraries}.
(** Whether the toolkit's [setItem] raises on a table, a cell and a text.
    Qt's own never does ([qt_setItem_raises]). *)
Variable setItem_raises : QTableWidget → nat → nat → string → option exn.

(** The slot connected to [itemChanged]. *)
Variable itemChanged : nat → nat → M unit.

(** [table_widget.setItem(row, col, QTableWidgetItem(text))]: the item
    is stored and [itemChanged] delivered to the slot; a cell outside
    the grid is ignored. *)
Definition setItem (r c : nat) (text : string) : M unit := λ st,
  match setItem_raises (tableWidget st) r c text with
  | Some e => Raised e st
  | None =>
      if in_range (tableWidget st) r c
      then itemChanged r c (set_tableWidget (store_item r c text) st)
      else Returned () st
  end.

(** [EditCellCommand.undo]. *)
Definition EditCellCommand_undo (self : EditCellCommand) : M unit :=
  modify (set_ignore_change true) ;;
  setItem (row self) (col self) (old_value self) ;;
  modify (set_ignore_change false).

(** [EditCellCommand.redo]. *)
Definition EditCellCommand_redo (self : EditCellCommand) : M unit :=
  modify (set_ignore_change true) ;;
  setItem (row self) (col self) (new_value self) ;;
  modify (set_ignore_change false).

(** The stack is C++ code that calls the Python methods of the command:
    an exception raised in one of them does not unwind it. The stack
    finishes what it does after the call, and the exception surfaces when
    the call of the stack returns. *)

(** [QUndoStack.push]: the command is executed, the commands past the
    index are deleted, and the command is appended. *)
Definition QUndoStack_push (cmd : EditCellCommand) : M unit :=
  try_finally (EditCellCommand_redo cmd)
    (modify (set_undo_stack (λ s,
       mkStack (take (index s) (command_list s) ++ [cmd]) (S (index s))))).

(** [QUndoStack.undo]: nothing at index 0; else the command before the
    index is undone and the index moves back. *)
Definition QUndoStack_undo : M unit :=
  st ← get_state;
  match index (undo_stack st) with
  | O => mret ()
  | S idx =>
      match command_list (undo_stack st) !! idx with
      | Some cmd =>
          try_finally (EditCellCommand_undo cmd)
            (modify (set_undo_stack (λ s, mkStack (command_list s) idx)))
      | None => mret ()
      end
  end.

(** [QUndoStack.redo]: nothing at the end of the list; else the command
    at the index is executed and the index moves on. *)
Definition QUndoStack_redo : M unit :=
  st ← get_state;
  let idx := index (undo_stack st) in
  match command_list (undo_stack st) !! idx with
  | Some cmd =>
      try_finally (EditCellCommand_redo cmd)
        (modify (set_undo_stack (λ s, mkStack (command_list s) (S idx))))
  | None => mret ()
  end.
End Toolkit.

Definition qt_setItem_raises : QTableWidget → nat → nat → string → option exn :=
  λ _ _ _ _, None.

(** ** [main_window.py] *)

Module MainWindow.
Section MainWindow.
Context `{Libraries}.
Variable setItem_raises : QTableWidget → nat → nat → string → option exn.

Definition _show_status (message : string) : M unit :=
  modify (set_statusBar message).

(** [_on_cell_clicked]. *)
Definition _on_cell_clicked (r c : nat) : M unit :=
  st ← get_state;
  modify (set_last (r, c) (item_text (tableWidget st) r c)).

(** [_on_item_changed], the slot of [itemChanged]. The command it
    pushes is executed by the stack, which delivers [itemChanged]
    again: [fuel] bounds the depth of that nesting.
    [[
    if self._ignore_change: return
    row, col = item.row(), item.column()
    new_value = item.text()
    old_value = self._last_value if self._last_cell == (row, col) else ""
    command = EditCellCommand(self.ui.tableWidget, row, col, old_value, new_value, self)
    self.undo_stack.push(command)
    ]]
    [_last_value] is set together with [_last_cell], so it is a text
    whenever the comparison succeeds. *)
Fixpoint _on_item_changed (fuel : nat) (r c : nat) : M unit := λ st,
  match fuel with
  | O => OutOfFuel
  | S fuel' =>
      if _ignore_change st then Returned () st else
      let new_value := item_text (tableWidget st) r c in
      let old_value :=
        if bool_decide (_last_cell st = Some (r, c))
        then default "" (_last_value st) else "" in
      QUndoStack_push setItem_raises (_on_item_changed fuel')
        (mkEdit r c old_value new_value) st
  end.

(** The user commits [text] in the editor of a cell of the grid: the
    toolkit stores it in the item and delivers [itemChanged]. *)
Definition edit_cell (fuel : nat) (r c : nat) (text : string) : M unit := λ st,
  if in_range (tableWidget st) r c
  then _on_item_changed fuel r c (set_tableWidget (store_item r c text) st)
  else Returned () st.

(** [undo]. *)
Definition undo (fuel : nat) : M unit :=
  modify (set_ignore_change true) ;;
  QUndoStack_undo setItem_raises (_on_item_changed fuel) ;;
  modify (set_ignore_change false) ;;
  _show_status "Undo".

(** [redo]. *)
Definition redo (fuel : nat) : M unit :=
  modify (set_ignore_change true) ;;
  QUndoStack_redo setItem_raises (_on_item_changed fuel) ;;
  modify (set_ignore_change false) ;;
  _show_status "Redo".
End MainWindow.
End MainWindow.

(** ** [components/CsvReader.py] *)

Module CsvReader.
Section CsvReader.
Context `{Libraries}.
(** [setItem] of the ui's table widget, with the slot the main window
    connected to it. *)
Variable setItem : nat → nat → string → M unit.

Definition required_columns : list string :=
  ["Description"; "Date"; "Type"; "Amount"].

(** [_check_csv_columns]:
    [all(col in df.columns for col in required_columns)]. *)
Definition _check_csv_columns (df : DataFrame) : bool :=
  forallb (λ c, bool_decide (c ∈ columns df)) required_columns.

(** [pd.read_csv(filename)]: the frame of a CSV file; anything else
    raises. *)
Definition read_csv (filename : string) : M DataFrame := λ st,
  match files st !! filename with
  | Some (CsvFile df) => Returned df st
  | _ => Raised IOError st
  end.

(** [str(df.iat[row, col])]. *)
Definition iat_str (df : DataFrame) (r c : nat) : string :=
  default "" (str <$> (values df !! r ≫= λ cells, cells !! c)).

(** The cells of a grid of [n] rows and [m] columns, row by row. *)
Definition cells (n m : nat) : list (nat * nat) :=
  r ← seq 0 n; c ← seq 0 m; [(r, c)].

(** [read]; [filename] is the answer of the file dialog, empty when the
    user cancels.
    [[
    if not filename: return
    self.current_filename = filename
    try: df = pd.read_csv(filename)
    except Exception as e: Message(...).show(); return
    if not self._check_csv_columns(df): Message(...).show(); return
    table.setRowCount(df.shape[0]); table.setColumnCount(df.shape[1])
    table.setHorizontalHeaderLabels(df.columns)
    for row ...: for col ...: table.setItem(row, col, QTableWidgetItem(str(df.iat[row, col])))
    ]]
    The messages are recorded without the text of the exception;
    [resizeColumnsToContents] changes nothing of the state kept here. *)
Definition read (filename : string) : M unit :=
  if String.eqb filename "" then mret () else
  modify (set_current_filename filename) ;;
  df ← try_except (Some <$> read_csv filename)
         (λ e, show_Message "Error" "Failed to read the CSV file." ;; mret None);
  match df with
  | None => mret ()
  | Some df =>
      if negb (_check_csv_columns df)
      then show_Message "Error"
             "The CSV file does not have the required columns. Please check the User Guide for more information."
      else
        modify (set_tableWidget (setRowCount (length (values df)))) ;;
        modify (set_tableWidget (setColumnCount (length (columns df)))) ;;
        modify (set_tableWidget (setHorizontalHeaderLabels (columns df))) ;;
        for_each (cells (length (values df)) (length (columns df)))
          (λ rc, setItem rc.1 rc.2 (iat_str df rc.1 rc.2))
  end.

(** [get_table_data]: the grid as a frame of texts, a column without a
    header item labelled [Column n]. *)
Definition get_table_data (table : QTableWidget) : DataFrame :=
  mkFrame
    ((λ c, default ("Column " +:+ pretty (S c)) (horizontalHeaderItem table !! c))
       <$> seq 0 (columnCount table))
    ((λ r : list string, Text <$> r) <$> table_texts table).

(** [df.to_csv(filename, index=False)]. *)
Definition to_csv (df : DataFrame) (filename : string) : M unit :=
  modify (set_files (<[filename := CsvFile df]>)).

(** [save_as]; [filename] is the answer of the save dialog. *)
Definition save_as (filename : string) : M unit :=
  if String.eqb filename "" then mret () else
  st ← get_state;
  to_csv (get_table_data (tableWidget st)) filename ;;
  modify (set_current_filename filename).

(** [quick_save]; the dialog is asked only when no file name is
    remembered. *)
Definition quick_save (dialog_answer : string) : M unit :=
  st ← get_state;
  match current_filename st with
  | Some name =>
      if String.eqb name "" then save_as dialog_answer
      else to_csv (get_table_data (tableWidget st)) name
  | None => save_as dialog_answer
  end.
End CsvReader.
End CsvReader.

(** ** [components/PdfExporter.py] *)

Module PdfExporter.
Section PdfExporter.
Context `{Libraries}.
Variable parse_datetime : string → parsed_date.

(** Whether [doc.build] raises when it writes to a path. *)
Variable build_raises : string → option exn.

(** [self._show_message]; the exporter is made with the main window as
    its parent. *)
Definition _show_message (title text : string) : M unit :=
  show_Message title text.

(** [_check_data]. *)
Definition _check_data (df : list Row) : M bool :=
  if bool_decide (df = [])
  then _show_message "Error" "No data to export." ;; mret false
  else mret true.

(** [tempfile.mkstemp(suffix=".png")] and [os.close(fd)]: a file that
    was not there before. *)
Definition mkstemp : M string := λ st,
  let path := fresh (dom (files st)) in
  Returned path (set_files (<[path := Blank]>) st).

(** [fig.savefig(path)]. *)
Definition savefig (path : string) (image : File) : M unit :=
  modify (set_files (<[path := image]>)).

(** [_create_pie_chart]: the temporary file is made first, then the
    series is derived and handed to [ax.pie], which may raise.
    [[
    fd, path = tempfile.mkstemp(suffix=".png"); os.close(fd)
    pie_data = ...
    ax.pie(pie_data, labels=pie_data.index, ...)
    fig.savefig(path)
    return path
    ]] *)
Definition _create_pie_chart (df : list Row) : M string :=
  path ← mkstemp;
  match ax_pie_raises (PdfCharts.pie_data df) with
  | Some e => raise e
  | None => savefig path (PieImage (PdfCharts.pie_data df)) ;; mret path
  end.

(** [_create_time_chart]: the temporary file is made first, then the
    frame is derived, which may raise. *)
Definition _create_time_chart (df : list Row) : M string :=
  path ← mkstemp;
  match PdfCharts.time_chart_data parse_datetime df with
  | Err e => raise e
  | Ok series => savefig path (LineImage series) ;; mret path
  end.

(** [_create_chart_images]. *)
Definition _create_chart_images (df : list Row) : M (string * string) :=
  pie_path ← _create_pie_chart df;
  time_path ← _create_time_chart df;
  mret (pie_path, time_path).

(** [_create_pdf_elements]. *)
Definition _create_pdf_elements (df : list Row) (pie_path time_path : string)
  : list Flowable :=
  [Paragraph "Personal Finance Data"; Spacer;
   Table ["Description"; "Date"; "Type"; "Amount"] df; Spacer;
   Paragraph "Top 10 Expenses/Incomes per Description"; Image pie_path; Spacer;
   Paragraph "Money Over Time"; Image time_path].

(** [_build_pdf]. *)
Definition _build_pdf (file_path : string) (elements : list Flowable) : M unit :=
  match build_raises file_path with
  | Some e => raise e
  | None => modify (set_files (<[file_path := Document elements]>))
  end.

(** [_cleanup_temp_files]:
    [for path in paths: if os.path.exists(path): os.remove(path)]. *)
Definition _cleanup_temp_files (paths : list string) : M unit :=
  for_each paths (λ path, modify (set_files (delete path))).

(** [export]; [file_path] is the answer of the save dialog.
    [[
    if not self._check_data(df): return
    file_path = self._get_save_path()
    if not file_path: return
    pie_path, time_path = self._create_chart_images(df)
    try:
        elements = self._create_pdf_elements(df, pie_path, time_path)
        self._build_pdf(file_path, elements)
        self._show_message("Success", ...)
    except Exception as e:
        self._show_message("Error", ...)
    finally:
        self._cleanup_temp_files([pie_path, time_path])
    ]]
    The error message is recorded without the text of the exception. *)
Definition export (df : list Row) (file_path : string) : M unit :=
  ok ← _check_data df;
  if negb ok then mret () else
  if String.eqb file_path "" then mret () else
  paths ← _create_chart_images df;
  try_finally
    (try_except
       (_build_pdf file_path (_create_pdf_elements df paths.1 paths.2) ;;
        _show_message "Success" "PDF exported successfully!")
       (λ e, _show_message "Error" "Failed to export PDF"))
    (_cleanup_temp_files [paths.1; paths.2]).
End PdfExporter.
End PdfExporter.

(** The actions of the main window that import, save and export. *)
Module Actions.
Section Actions.
Context `{Libraries}.
Variable to_numeric : string → option num.
Variable parse_datetime : string → parsed_date.
Variable build_raises : string → option exn.
Variable setItem_raises : QTableWidget → nat → nat → string → option exn.

(** The reader's table widget is the ui's, whose [itemChanged] the main
    window connected to [_on_item_changed]. *)
Definition ui_setItem (fuel : nat) : nat → nat → string → M unit :=
  setItem setItem_raises (MainWindow._on_item_changed setItem_raises fuel).

(** [MainWindow.import_csv]. *)
Definition import_csv (fuel : nat) (filename : string) : M unit :=
  CsvReader.read (ui_setItem fuel) filename ;;
  MainWindow._show_status "CSV Imported".

(** [MainWindow.save]. *)
Definition save (dialog_answer : string) : M unit :=
  CsvReader.quick_save dialog_answer ;;
  MainWindow._show_status "File saved".

(** [MainWindow.save_to_pdf]; [file_path] is the answer of the save
    dialog of the exporter.
    [[
    df = self._table_to_dataframe(self.ui.tableWidget)
    if df is None: Message(...).show(); return
    PdfExporter(self).export(df)
    self._show_status("PDF exported", 2000)
    ]]
    The frame that the extraction returns is not empty. When it lacks a
    column that the exporter reads ([Description], which the extraction
    does not ask for), [export] passes its check and its dialog and
    raises at the first reading of the column, in [_create_pie_chart],
    after the temporary file was made. *)
Definition save_to_pdf (file_path : string) : M unit :=
  st ← get_state;
  match _table_to_dataframe to_numeric (tableWidget st) with
  | Err e => raise e
  | Ok None =>
      show_Message "Error" "The table is empty or contains invalid data."
  | Ok (Some df) =>
      match ledger_rows df with
      | Err e =>
          if String.eqb file_path "" then MainWindow._show_status "PDF exported"
          else PdfExporter.mkstemp ;; raise e
      | Ok rows =>
          PdfExporter.export parse_datetime build_raises rows file_path ;;
          MainWindow._show_status "PDF exported"
      end
  end.
End Actions.
End Actions.

(** ** The libraries of the worked examples *)

(** [to_numeric] on texts like ["42"] and ["-7"] is [sample_numeric]
    above. The libraries on amounts that are integers small enough to be
    exact as int64 and as float64: the arithmetic of the integers, the
    decimal digits of a number as its [str], an [ax.pie] that refuses a
    negative wedge size and nothing else, and a sorting routine, which is
    the insertion sort unless an example is about every routine. *)
Definition small_integers_sorted_by (argsort : list Z → list nat) : Libraries := {|
  num := Z;
  num_eq_dec := Z.eq_dec;
  add := Z.add;
  neg := Z.opp;
  astype_float := λ z, z;
  GroupBy_sum := foldl Z.add 0;
  Series_sum := foldl Z.add 0;
  num_str := pretty;
  num_le := Z.le;
  argsort_datetime := argsort;
  argsort_num := argsort;
  ax_pie_raises := λ series,
    if existsb (λ slice : string * Z, slice.2 <? 0) series
    then Some ValueError else None
|}.

Definition small_integers : Libraries :=
  small_integers_sorted_by (insertion_argsort Z.leb).

(** ** Notions used in the statements *)

(** What the theorems on sorted output assume of the sorting routine: the
    positions it returns are the positions of the keys, each once, and the
    keys at these positions ascend. Nothing is assumed of the order it
    gives to equal keys. *)
Definition sorts `{Libraries} : Prop :=
  (∀ keys, argsort_datetime keys ≡ₚ seq 0 (length keys))
  ∧ (∀ keys, StronglySorted Z.le (Pandas.iloc keys (argsort_datetime keys)))
  ∧ (∀ keys, argsort_num keys ≡ₚ seq 0 (length keys))
  ∧ (∀ keys, StronglySorted num_le (Pandas.iloc keys (argsort_num keys))).

Section Orders.
Context {A : Type}.

(** Ascending, and strictly ascending, on an integer key. *)
Definition key_le (key : A → Z) (x y : A) : Prop := key x ≤ key y.

(** Ascending on a key that may be missing, missing keys last. *)
Definition date_le (key : A → option Z) (x y : A) : Prop :=
  match key x, key y with
  | Some a, Some b => a ≤ b
  | _, None => True
  | None, Some _ => False
  end.
End Orders.

(** The texts made of lower-case letters only. *)
Fixpoint all_lower_letters (t : string) : bool :=
  match t with
  | EmptyString => true
  | String d t' => is_lower_letter d && all_lower_letters t'
  end.

(** Code point order on texts, as [groupby] sorts its keys. *)
Definition string_lt (s t : string) : Prop := String.compare s t = Lt.

Section Notions.
Context `{Libraries}.

(** The date pandas reads in a row, if any, and the rows of the working
    frames made from a typed row: by the chart view, and by the export,
    which converts the amount to float first. *)
Definition parsed (parse_datetime : string → parsed_date) (row : Row) : option Z :=
  Pandas.to_datetime_coerce parse_datetime (Date row).

Definition line_row (parse_datetime : string → parsed_date) (row : Row) : LineRow :=
  mkLineRow row (signed_amount row) (parsed parse_datetime row).

Definition time_row (parse_datetime : string → parsed_date) (row : Row) : LineRow :=
  mkLineRow row (signed (Type_ row) (astype_float (Amount row)))
            (parsed parse_datetime row).

(** The rows with a date. *)
Definition dated (parse_datetime : string → parsed_date) (df : list Row) : list Row :=
  filter (λ row, is_Some (parsed parse_datetime row)) df.

(** The order of the grouping summary: larger sums first. *)
Definition descending (g1 g2 : string * num) : Prop := num_le g2.2 g1.2.

(** The two paths [mkstemp] hands out during an export from a state. *)
Definition pie_path (st : App) : string := fresh (dom (files st) : gset string).
Definition time_path (st : App) : string :=
  fresh (({[pie_path st]} ∪ dom (files st)) : gset string).

(** The typed row that the extraction makes of row [r] of a table whose
    [Amount] column stands at position [a]: the texts of the grid with the
    amount as a number. *)
Definition typed_row (to_numeric : string → option num) (table : QTableWidget)
  (a r : nat) : list value :=
  (λ c, if bool_decide (c = a)
        then match to_numeric (item_text table r c) with
             | Some z => Number z
             | None => NaN
             end
        else Text (item_text table r c))
    <$> seq 0 (columnCount table).
End Notions.

(** Two grids of four columns. In the first the second row has no amount
    that parses; in the second the only row has no Date and no Type item. *)
Definition four_headers : gmap nat string :=
  {[ 0%nat := "Description"; 1%nat := "Date"; 2%nat := "Type"; 3%nat := "Amount" ]}.

Definition grid_bad_amount : QTableWidget :=
  mkTable 2 4 four_headers
    {[ (0%nat, 0%nat) := "rent"; (0%nat, 1%nat) := "Jan-1";
       (0%nat, 2%nat) := "Expense"; (0%nat, 3%nat) := "30";
       (1%nat, 0%nat) := "gift"; (1%nat, 1%nat) := "Jan-2";
       (1%nat, 2%nat) := "Income"; (1%nat, 3%nat) := "a lot" ]}.

Definition grid_missing_date : QTableWidget :=
  mkTable 1 4 four_headers {[ (0%nat, 0%nat) := "rent"; (0%nat, 3%nat) := "30" ]}.

(** A grid whose only row has a Date that is no date. *)
Definition grid_bad_date : QTableWidget :=
  mkTable 1 4 four_headers
    {[ (0%nat, 0%nat) := "rent"; (0%nat, 1%nat) := "soon";
       (0%nat, 2%nat) := "Expense"; (0%nat, 3%nat) := "30" ]}.

(** The two messages of a failed import. *)
Definition schema_warning : Message :=
  mkMessage "Error"
    "The CSV file does not have the required columns. Please check the User Guide for more information.".

Definition read_warning : Message :=
  mkMessage "Error" "Failed to read the CSV file.".

(** A grid of one cell holding ["x"], one edit of it on the stack. *)
Definition one_cell : QTableWidget :=
  mkTable 1 1 {[0%nat := "Amount"]} {[(0%nat, 0%nat) := "x"]}.

Definition one_edit `{Libraries} : App :=
  mkApp (store_item 0 0 "y" one_cell) (mkStack [mkEdit 0 0 "x" "y"] 1)
        false None None None "Ready" [] ∅.

(** A state with a loaded grid and file, and two files that fail to import:
    one without the [Amount] column and one that is no CSV file. *)
Definition loaded `{Libraries} : App :=
  mkApp one_cell (mkStack [mkEdit 0 0 "x" "y"] 1) false None None (Some "old.csv")
        "Ready" []
        {[ "old.csv" := CsvFile (mkFrame ["Amount"] [[Text "x"]]);
           "short.csv" := CsvFile (mkFrame ["Description"; "Date"; "Type"] []);
           "notes.txt" := Blank ]}.

(** ** The other actions of the main window *)

Module Window.
Section Window.
Context `{Libraries}.
Variable to_numeric : string → option num.
Variable parse_datetime : string → parsed_date.
Variable build_raises : string → option exn.

(** [MainWindow.__init__]: the state the window starts in, given the table
    widget that [setupUi] built and the files on disk. *)
Definition __init__ (ui_table : QTableWidget) (disk : gmap string File) : App :=
  mkApp ui_table (mkStack [] 0) false None None None "Ready" [] disk.

(** [MainWindow.save_file]; [filename] is the answer of the save dialog. *)
Definition save_file (filename : string) : M unit :=
  CsvReader.save_as filename ;;
  MainWindow._show_status "File saved as ...".

(** [MainWindow.export_to_pdf]. *)
Definition export_to_pdf (file_path : string) : M unit :=
  Actions.save_to_pdf to_numeric parse_datetime build_raises file_path.

(** [MainWindow.charts]: the two series that the [Charts] dialog draws, or
    nothing when there is no valid data; the dialog raises when one of
    its charts does.
    [[
    df = self._table_to_dataframe(self.ui.tableWidget)
    if df is None or df.empty: Message(...).show(); return
    Charts(self, df).exec()
    self._show_status("Charts Created", 2000)
    ]] *)
Definition charts : M (option (list (string * num) * list (option Z * num))) :=
  st ← get_state;
  match _table_to_dataframe to_numeric (tableWidget st) with
  | Err e => raise e
  | Ok None =>
      show_Message "Error" "The table is empty or contains invalid data." ;;
      mret None
  | Ok (Some df) =>
      match ledger_rows df with
      | Err e => raise e
      | Ok rows =>
          match Charts.__init__ parse_datetime rows with
          | Err e => raise e
          | Ok drawn => MainWindow._show_status "Charts Created" ;; mret (Some drawn)
          end
      end
  end.
End Window.
End Window.

(** ** Further notions used in the statements *)

Global Instance parsed_date_eq_dec : EqDecision parsed_date.
Proof. solve_decision. Defined.

(** What [QUndoStack.push] makes of the stack. *)
Definition pushed (cmd : EditCellCommand) (s : QUndoStack) : QUndoStack :=
  mkStack (take (index s) (command_list s) ++ [cmd]) (S (index s)).

(** The messages of the export and of the charts. *)
Definition no_data_warning : Message :=
  mkMessage "Error" "The table is empty or contains invalid data.".

Definition export_success : Message :=
  mkMessage "Success" "PDF exported successfully!".

Definition export_error : Message :=
  mkMessage "Error" "Failed to export PDF".

Section StateNotions.
Context `{Libraries}.

(** A statement maintains a property of the state when, run from a state
    that has it, it returns or raises in a state that has it. *)
Definition maintains {A} (I : App → Prop) (m : M A) : Prop :=
  ∀ st, I st →
    match m st with
    | Returned _ st' | Raised _ st' => I st'
    | OutOfFuel => False
    end.

(** The index of the undo stack lies within its list. *)
Definition stack_in_bounds (st : App) : Prop :=
  (index (undo_stack st) ≤ length (command_list (undo_stack st)))%nat.

(** The command that [_on_item_changed] records for a cell, in a state. *)
Definition recorded (st : App) (r c : nat) : EditCellCommand :=
  mkEdit r c
    (if bool_decide (_last_cell st = Some (r, c))
     then default "" (_last_value st) else "")
    (item_text (tableWidget st) r c).

(** The grid that an import makes of a frame: its texts, cell by cell. *)
Definition imported_texts (df : DataFrame) : list (list string) :=
  (λ r, (λ c, CsvReader.iat_str df r c) <$> seq 0 (length (columns df)))
    <$> seq 0 (length (values df)).

(** What editing is about: the grid, the history, the flag and the last
    click; and what the disk and the dialogs are about: the files, the
    remembered file name and the messages shown. *)
Definition editing_state (st : App)
  : QTableWidget * QUndoStack * bool * option (nat * nat) * option string :=
  (tableWidget st, undo_stack st, _ignore_change st, _last_cell st, _last_value st).

Definition disk_state (st : App) : gmap string File * option string * list Message :=
  (files st, current_filename st, shown st).

(** What one [setItem] of the import makes of a state with the flag
    clear: the text is stored in the cell and, through the slot, recorded
    as an edit of its own. *)
Definition import_cell (text : nat → nat → string) (st : App) (rc : nat * nat) : App :=
  let st1 := set_tableWidget (store_item rc.1 rc.2 (text rc.1 rc.2)) st in
  set_undo_stack (pushed (recorded st1 rc.1 rc.2))
    (set_ignore_change false
       (set_tableWidget
          (store_item rc.1 rc.2 (item_text (tableWidget st1) rc.1 rc.2)) st1)).

(** The header of the frame that saving writes: the label of each column
    of the grid, [Column n] for a column without a header item. *)
Definition saved_label (table : QTableWidget) (c : nat) : string :=
  match horizontalHeaderItem table !! c with
  | Some label => label
  | None => "Column " +:+ pretty (S c)
  end.
End StateNotions.

(** * Properties *)
(** ** Indexers and sorting *)

Lemma iloc_fmap {A B} (f : A → B) rows indexer :
  Pandas.iloc (f <$> rows) indexer = f <$> Pandas.iloc rows indexer.
Proof.
  unfold Pandas.iloc. induction indexer as [|i indexer IH]; [done|].
  csimpl. rewrite list_lookup_fmap, IH. by destruct (rows !! i).
Qed.

Lemma iloc_seq {A} (front rows : list A) :
  Pandas.iloc (front ++ rows) (seq (length front) (length rows)) = rows.
Proof.
  unfold Pandas.iloc. revert front. induction rows as [|x rows IH]; intros front; [done|].
  csimpl. rewrite list_lookup_middle by done. csimpl. f_equal.
  specialize (IH (front ++ [x])). rewrite length_app, <- (assoc_L (++)) in IH. simpl in IH.
  by replace (length front + 1)%nat with (S (length front)) in IH by lia.
Qed.

Lemma iloc_Permutation {A} (rows : list A) indexer :
  indexer ≡ₚ seq 0 (length rows) → Pandas.iloc rows indexer ≡ₚ rows.
Proof.
  intros Hp. unfold Pandas.iloc. rewrite Hp.
  pose proof (iloc_seq [] rows) as Hseq. unfold Pandas.iloc in Hseq. simpl in Hseq.
  by rewrite Hseq.
Qed.

Lemma iloc_nil {A} (rows : list A) : Pandas.iloc rows [] = [].
Proof. done. Qed.

Section SortingFacts.
Context {A : Type} (le : A → A → bool).

Lemma insert_by_Permutation x l : insert_by le x l ≡ₚ x :: l.
Proof.
  induction l as [|y l IH]; simpl; [done|].
  destruct (le x y); [done|].
  rewrite IH. apply Permutation_swap.
Qed.

Lemma insertion_sort_Permutation l : insertion_sort le l ≡ₚ l.
Proof.
  induction l as [|x l IH]; simpl; [done|].
  by rewrite insert_by_Permutation, IH.
Qed.

Hypothesis le_total : ∀ x y, le x y = false → le y x = true.
Hypothesis le_trans : ∀ x y z, le x y = true → le y z = true → le x z = true.

Lemma insert_by_sorted x l :
  StronglySorted (λ a b, le a b = true) l →
  StronglySorted (λ a b, le a b = true) (insert_by le x l).
Proof.
  induction 1 as [|y l Hl IH Hy]; simpl.
  - repeat constructor.
  - destruct (le x y) eqn:Hxy.
    + constructor; [by constructor|].
      constructor; [done|].
      eapply Forall_impl; [exact Hy|]. intros z Hz. by eapply le_trans.
    + constructor; [done|].
      rewrite insert_by_Permutation. constructor; [|done]. by apply le_total.
Qed.

Lemma insertion_sort_sorted l :
  StronglySorted (λ a b, le a b = true) (insertion_sort le l).
Proof.
  induction l as [|x l IH]; simpl; [constructor|]. by apply insert_by_sorted.
Qed.
End SortingFacts.

(** The insertion sort of the worked examples meets the contract. *)
Lemma fst_imap_pair {K} (keys : list K) : (imap pair keys).*1 = seq 0 (length keys).
Proof.
  assert (Hgen : ∀ n, (imap (λ i, pair (n + i)%nat) keys).*1 = seq n (length keys)).
  { induction keys as [|k keys IH]; intros n; [done|].
    simpl. rewrite Nat.add_0_r. f_equal.
    rewrite <- (IH (S n)). f_equal. apply imap_ext. intros i x _. simpl. f_equal. lia. }
  apply (Hgen 0%nat).
Qed.

Lemma insertion_argsort_Permutation {K} (le : K → K → bool) keys :
  insertion_argsort le keys ≡ₚ seq 0 (length keys).
Proof.
  unfold insertion_argsort.
  by rewrite insertion_sort_Permutation, fst_imap_pair.
Qed.

Lemma iloc_insertion_argsort {K} (le : K → K → bool) keys :
  Pandas.iloc keys (insertion_argsort le keys)
  = (insertion_sort (λ p q : nat * K, le p.2 q.2) (imap pair keys)).*2.
Proof.
  unfold insertion_argsort, Pandas.iloc.
  assert (Hall : Forall (λ p : nat * K, keys !! p.1 = Some p.2)
                   (insertion_sort (λ p q : nat * K, le p.2 q.2) (imap pair keys))).
  { rewrite insertion_sort_Permutation. apply Forall_forall.
    intros [i k] (j & y & [= -> ->] & Hj)%elem_of_lookup_imap. done. }
  induction Hall as [|[i k] l Hik Hl IH]; [done|].
  csimpl. simpl in Hik. rewrite Hik. csimpl. by rewrite IH.
Qed.

Lemma insertion_argsort_sorted {K} (le : K → K → bool) keys :
  (∀ x y, le x y = false → le y x = true) →
  (∀ x y z, le x y = true → le y z = true → le x z = true) →
  StronglySorted (λ a b, le a b = true) (Pandas.iloc keys (insertion_argsort le keys)).
Proof.
  intros Htotal Htrans. rewrite iloc_insertion_argsort.
  apply (StronglySorted_fmap snd (λ p q : nat * K, le p.2 q.2 = true)); [done|].
  apply (insertion_sort_sorted (λ p q : nat * K, le p.2 q.2)).
  - intros x y. apply Htotal.
  - intros x y z. apply Htrans.
Qed.

Lemma StronglySorted_weaken {A} (R1 R2 : relation A) l :
  (∀ x y, R1 x y → R2 x y) → StronglySorted R1 l → StronglySorted R2 l.
Proof.
  intros HR. induction 1 as [|x l Hl IH Hx]; constructor; [done|].
  eapply Forall_impl; [exact Hx|]. intros y. apply HR.
Qed.

Lemma small_integers_sorts : @sorts small_integers.
Proof.
  assert (Hsorted : ∀ keys : list Z,
            StronglySorted Z.le (Pandas.iloc keys (insertion_argsort Z.leb keys))).
  { intros keys.
    eapply (StronglySorted_weaken (λ a b, (a <=? b) = true)).
    - intros a b. apply Z.leb_le.
    - apply insertion_argsort_sorted.
      + intros x y. rewrite Z.leb_gt, Z.leb_le. lia.
      + intros x y z. rewrite !Z.leb_le. lia. }
  split; [|split; [|split]].
  - intros keys. apply insertion_argsort_Permutation.
  - apply Hsorted.
  - intros keys. apply insertion_argsort_Permutation.
  - apply Hsorted.
Qed.

(** ** [sort_values] on a key that may be missing *)

Lemma filter_ext_Forall {A} (P Q : A → Prop) `{!∀ x, Decision (P x), !∀ x, Decision (Q x)} l :
  Forall (λ x, P x ↔ Q x) l → filter P l = filter Q l.
Proof.
  induction 1 as [|x l Hx Hl IH]; [done|].
  rewrite !filter_cons, IH. repeat case_decide; tauto.
Qed.

Lemma filter_none_Forall {A} (P : A → Prop) `{!∀ x, Decision (P x)} l :
  Forall (λ x, ¬ P x) l → filter P l = [].
Proof.
  induction 1 as [|x l Hx Hl IH]; [done|].
  rewrite filter_cons, IH. by case_decide.
Qed.

Lemma filter_all_Forall {A} (P : A → Prop) `{!∀ x, Decision (P x)} l :
  Forall P l → filter P l = l.
Proof.
  induction 1 as [|x l Hx Hl IH]; [done|].
  rewrite filter_cons, IH. by case_decide.
Qed.

Lemma filter_fmap_list {A B} (P : B → Prop) `{!∀ x, Decision (P x)} (f : A → B) (l : list A) :
  filter P (f <$> l) = f <$> filter (λ x, P (f x)) l.
Proof.
  induction l as [|x l IH]; [done|].
  rewrite fmap_cons, !filter_cons, IH. by case_decide.
Qed.



Section SortValuesFacts.
Context `{Libraries} {A : Type} (key : A → option Z).

Local Abbreviation present l := (filter (λ x, is_Some (key x)) l).
Local Abbreviation key0 := (λ x : A, default 0 (key x)).

Lemma sort_values_present l :
  Forall (λ x, is_Some (key x)) l →
  Pandas.sort_values key l = Pandas.iloc l (argsort_datetime (key0 <$> l)).
Proof.
  intros Hl. unfold Pandas.sort_values.
  rewrite (filter_none_Forall (λ x, ¬ is_Some (key x))), app_nil_r.
  - by rewrite filter_all_Forall.
  - eapply Forall_impl; [exact Hl|]. naive_solver.
Qed.

Hypothesis Hsorts : sorts.

Lemma sorted_rows_Permutation (l : list A) :
  Pandas.iloc l (argsort_datetime (key0 <$> l)) ≡ₚ l.
Proof.
  apply iloc_Permutation. destruct Hsorts as (Hp & _). by rewrite Hp, length_fmap.
Qed.

Lemma sorted_rows_sorted (l : list A) :
  StronglySorted (key_le key0) (Pandas.iloc l (argsort_datetime (key0 <$> l))).
Proof.
  destruct Hsorts as (_ & Hs & _). specialize (Hs (key0 <$> l)).
  rewrite iloc_fmap in Hs.
  set (s := Pandas.iloc l _) in *. clearbody s.
  induction s as [|x s IH]; [constructor|].
  rewrite fmap_cons in Hs. apply StronglySorted_inv in Hs as [Hs Hx].
  constructor; [by apply IH|].
  apply Forall_forall. intros y Hy. rewrite Forall_forall in Hx.
  apply Hx. by apply (list_elem_of_fmap_2 key0).
Qed.

Lemma sort_values_Permutation l : Pandas.sort_values key l ≡ₚ l.
Proof.
  unfold Pandas.sort_values. rewrite sorted_rows_Permutation.
  apply filter_app_complement.
Qed.

Lemma sorted_present_date_le s :
  StronglySorted (key_le key0) s →
  Forall (λ x, is_Some (key x)) s →
  StronglySorted (date_le key) s.
Proof.
  induction 1 as [|x s Hs IH Hx]; [constructor|].
  intros [[a Ha] Hsome]%Forall_cons.
  constructor; [by apply IH|].
  apply Forall_forall. intros y Hy.
  rewrite Forall_forall in Hx, Hsome. specialize (Hx y Hy).
  destruct (Hsome y Hy) as [b Hb].
  unfold key_le, date_le in *. rewrite Ha, Hb in *. done.
Qed.

Lemma sort_values_sorted l : StronglySorted (date_le key) (Pandas.sort_values key l).
Proof.
  unfold Pandas.sort_values.
  apply StronglySorted_app. split; [|split].
  - intros x y Hx Hy.
    apply list_elem_of_filter in Hy as [Hy _].
    unfold date_le. destruct (key y); [|by destruct (key x)].
    destruct Hy. done.
  - apply sorted_present_date_le; [apply sorted_rows_sorted|].
    rewrite sorted_rows_Permutation. apply Forall_forall.
    intros x Hx. by apply list_elem_of_filter in Hx as [? _].
  - induction l as [|x l IH]; [constructor|].
    rewrite filter_cons. case_decide as Hx; [|done].
    constructor; [done|]. apply Forall_forall. intros y Hy.
    apply list_elem_of_filter in Hy as [Hy _].
    unfold date_le. destruct (key y); [|by destruct (key x)].
    destruct Hy. done.
Qed.

End SortValuesFacts.

(** ** The running total *)

Section Cumsum.
Context `{Libraries}.

Lemma cumsum_from_length acc l : length (Pandas.cumsum_from acc l) = length l.
Proof. revert acc. induction l as [|x l IH]; intros acc; simpl; [done|]. by rewrite IH. Qed.

Lemma cumsum_length l : length (Pandas.cumsum l) = length l.
Proof. destruct l; simpl; [done|]. by rewrite cumsum_from_length. Qed.




(** The totals of a column stay what they are when rows are appended. *)
Lemma cumsum_from_prefix acc l l' :
  Pandas.cumsum_from acc l `prefix_of` Pandas.cumsum_from acc (l ++ l').
Proof.
  revert acc. induction l as [|x l IH]; intros acc; simpl.
  - apply prefix_nil.
  - apply prefix_cons, IH.
Qed.

Lemma cumsum_prefix l l' : Pandas.cumsum l `prefix_of` Pandas.cumsum (l ++ l').
Proof.
  destruct l as [|x l]; simpl; [apply prefix_nil|].
  apply prefix_cons, cumsum_from_prefix.
Qed.
End Cumsum.

(** ** Case-insensitive comparison with a lower-case literal *)

Lemma N_of_ascii_of_N_small n : (n < 256)%N → Ascii.N_of_ascii (Ascii.ascii_of_N n) = n.
Proof. intros Hn. by apply Ascii.N_ascii_embedding. Qed.

Lemma ascii_eqb_N a b : Ascii.eqb a b = (Ascii.N_of_ascii a =? Ascii.N_of_ascii b)%N.
Proof.
  destruct (Ascii.eqb_spec a b) as [->|Hne].
  - by rewrite N.eqb_refl.
  - symmetry. apply N.eqb_neq. intros Heq. apply Hne.
    by rewrite <- (Ascii.ascii_N_embedding a), <- (Ascii.ascii_N_embedding b), Heq.
Qed.

Lemma lower_char_eqb c d :
  is_lower_letter d = true →
  Ascii.eqb (lower_char c) d = char_eq_ignore_case c d.
Proof.
  unfold is_lower_letter, char_eq_ignore_case, lower_char, is_lower_letter.
  intros Hd. rewrite Hd. simpl.
  pose proof (Ascii.N_ascii_bounded c) as Hc.
  apply andb_true_iff in Hd as [Hd1%N.leb_le Hd2%N.leb_le].
  destruct (N.leb_spec 65 (Ascii.N_of_ascii c)) as [H1|H1];
    destruct (N.leb_spec (Ascii.N_of_ascii c) 90) as [H2|H2]; simpl;
    rewrite !ascii_eqb_N; try rewrite N_of_ascii_of_N_small by lia;
    destruct (N.leb_spec 97 (Ascii.N_of_ascii c)) as [H3|H3];
    destruct (N.leb_spec (Ascii.N_of_ascii c) 122) as [H4|H4]; simpl;
    repeat match goal with
           | |- context [(?a =? ?b)%N] => destruct (N.eqb_spec a b)
           end; simpl; try done; lia.
Qed.

Lemma lower_eqb_ignore_case s t :
  all_lower_letters t = true →
  String.eqb (lower s) t = eq_ignore_case s t.
Proof.
  revert t. induction s as [|c s IH]; intros [|d t]; simpl; try done.
  intros [Hd Ht]%andb_true_iff.
  by rewrite lower_char_eqb, IH.
Qed.

(** C2. For every row, the signed amount is the row's amount when the row's
    type equals "income" up to the case of its letters, and the negated
    amount for every other type text; "Expense" and free text are among the
    others. *)
Theorem signed_amount_income_case_insensitive `{Libraries} (row : Row) :
  signed_amount row
  = (if eq_ignore_case (Type_ row) "income" then Amount row else neg (Amount row))
  ∧ (∀ a, signed_amount (mkRow (Description row) (Date row) "Expense" a) = neg a)
  ∧ (∀ a, signed_amount (mkRow (Description row) (Date row) "iNcOmE" a) = a)
  ∧ (∀ a, signed_amount (mkRow (Description row) (Date row) "income tax" a) = neg a).
Proof.
  split; [|by repeat split].
  unfold signed_amount, signed. by rewrite lower_eqb_ignore_case.
Qed.
(** ** The balance series of the chart view *)

Section BalanceSeries.
Context `{Libraries}.
Variable parse_datetime : string → parsed_date.

Local Abbreviation parsed := (parsed parse_datetime).
Local Abbreviation line_row := (line_row parse_datetime).
Local Abbreviation dated := (dated parse_datetime).
Local Abbreviation date0 := (λ r : LineRow, default 0 (ParsedDate r)).

Lemma line_rows_dated df :
  filter (λ r, is_Some (ParsedDate r))
    ((λ row, mkLineRow row (signed_amount row)
               (Pandas.to_datetime_coerce parse_datetime (Date row))) <$> df)
  = line_row <$> dated df.
Proof. by rewrite filter_fmap_list. Qed.

Lemma line_rows_have_dates df : Forall (λ r, is_Some (ParsedDate r)) (line_row <$> dated df).
Proof.
  apply Forall_forall. intros r (row & -> & Hrow)%list_elem_of_fmap.
  by apply list_elem_of_filter in Hrow as [? _].
Qed.

(** The frame of the chart view: the rows with a date, at the positions
    the sorting routine gives for their dates. *)
Lemma line_chart_frame_unfold df :
  Charts.line_chart_frame parse_datetime df
  = Pandas.iloc (line_row <$> dated df)
      (argsort_datetime (date0 <$> (line_row <$> dated df))).
Proof.
  unfold Charts.line_chart_frame. rewrite line_rows_dated.
  apply sort_values_present, line_rows_have_dates.
Qed.




Hypothesis Hsorts : sorts.







End BalanceSeries.

Section BalanceExamples.
Local Existing Instance small_integers.

End BalanceExamples.


(** ** The grouping summary *)

Lemma string_lt_trans s t u : string_lt s t → string_lt t u → string_lt s u.
Proof.
  unfold string_lt. revert t u.
  induction s as [|a s IH]; intros [|b t] [|c u]; simpl; try done.
  unfold Ascii.compare.
  destruct (N.compare_spec (Ascii.N_of_ascii a) (Ascii.N_of_ascii b));
    destruct (N.compare_spec (Ascii.N_of_ascii b) (Ascii.N_of_ascii c));
    destruct (N.compare_spec (Ascii.N_of_ascii a) (Ascii.N_of_ascii c));
    try done; try lia.
  apply IH.
Qed.

Lemma string_lt_irrefl s : ¬ string_lt s s.
Proof.
  unfold string_lt. induction s as [|a s IH]; simpl; [done|].
  unfold Ascii.compare. by rewrite N.compare_refl.
Qed.

Lemma string_compare_Gt s t : String.compare s t = Gt → string_lt t s.
Proof. unfold string_lt. intros H. rewrite String.compare_antisym, H. done. Qed.

Lemma StronglySorted_filter {A} (R : relation A) (P : A → Prop) `{!∀ x, Decision (P x)} l :
  StronglySorted R l → StronglySorted R (filter P l).
Proof.
  induction 1 as [|x l Hl IH Hx]; [constructor|].
  rewrite filter_cons. case_decide; [|done].
  constructor; [done|]. apply Forall_forall. intros y Hy.
  apply list_elem_of_filter in Hy as [_ Hy]. rewrite Forall_forall in Hx. auto.
Qed.

Lemma elem_of_insert_key x k keys : x ∈ Pandas.insert_key k keys ↔ x = k ∨ x ∈ keys.
Proof.
  induction keys as [|k' keys IH]; simpl; [by rewrite elem_of_cons|].
  destruct (String.compare k k') eqn:Hc.
  - apply String.compare_eq_iff in Hc as ->. rewrite elem_of_cons. tauto.
  - by rewrite elem_of_cons.
  - rewrite elem_of_cons, IH, elem_of_cons. tauto.
Qed.

Lemma insert_key_sorted k keys :
  StronglySorted string_lt keys → StronglySorted string_lt (Pandas.insert_key k keys).
Proof.
  induction 1 as [|k' keys Hs IH Hk']; simpl; [repeat constructor|].
  destruct (String.compare k k') eqn:Hc.
  - by constructor.
  - constructor; [by constructor|]. constructor; [done|].
    eapply Forall_impl; [exact Hk'|]. intros z Hz. by eapply string_lt_trans.
  - constructor; [done|]. apply Forall_forall. intros z Hz.
    apply elem_of_insert_key in Hz as [->|Hz].
    + by apply string_compare_Gt.
    + rewrite Forall_forall in Hk'. auto.
Qed.

Lemma group_keys_sorted col : StronglySorted string_lt (Pandas.group_keys col).
Proof.
  induction col as [|k col IH]; simpl; [constructor|]. by apply insert_key_sorted.
Qed.

Lemma elem_of_group_keys x col : x ∈ Pandas.group_keys col ↔ x ∈ col.
Proof.
  induction col as [|k col IH]; simpl; [done|].
  rewrite elem_of_insert_key, elem_of_cons, IH. done.
Qed.

Lemma StronglySorted_irrefl_NoDup {A} (R : relation A) l :
  (∀ x, ¬ R x x) → StronglySorted R l → NoDup l.
Proof.
  intros Hirr. induction 1 as [|x l Hl IH Hx]; constructor; [|done].
  intros Hin. rewrite Forall_forall in Hx. by apply (Hirr x), Hx.
Qed.

Lemma StronglySorted_reverse {A} (R : relation A) l :
  StronglySorted R l → StronglySorted (flip R) (reverse l).
Proof.
  induction 1 as [|x l Hl IH Hx]; [constructor|].
  rewrite reverse_cons. apply StronglySorted_app. split; [|split].
  - intros y z Hy Hz. apply list_elem_of_singleton in Hz as ->.
    rewrite elem_of_reverse in Hy. rewrite Forall_forall in Hx. unfold flip. by apply Hx.
  - done.
  - repeat constructor.
Qed.

Section DescendingFacts.
Context `{Libraries} {A : Type} (key : A → num).
Hypothesis Hsorts : sorts.

Lemma sort_values_descending_Permutation l :
  Pandas.sort_values_descending key l ≡ₚ l.
Proof.
  unfold Pandas.sort_values_descending. rewrite reverse_Permutation.
  rewrite iloc_Permutation; [apply reverse_Permutation|].
  destruct Hsorts as (_ & _ & Hp & _). by rewrite Hp, length_fmap.
Qed.

Lemma sort_values_descending_sorted l :
  StronglySorted (λ x y, num_le (key y) (key x)) (Pandas.sort_values_descending key l).
Proof.
  unfold Pandas.sort_values_descending.
  apply (StronglySorted_reverse (λ x y, num_le (key x) (key y))).
  destruct Hsorts as (_ & _ & _ & Hs). specialize (Hs (key <$> reverse l)).
  rewrite iloc_fmap in Hs.
  set (s := Pandas.iloc (reverse l) _) in *. clearbody s.
  induction s as [|x s IH]; [constructor|].
  rewrite fmap_cons in Hs. apply StronglySorted_inv in Hs as [Hs Hx].
  constructor; [by apply IH|].
  apply Forall_forall. intros y Hy. rewrite Forall_forall in Hx.
  apply Hx. by apply (list_elem_of_fmap_2 key).
Qed.
End DescendingFacts.

Section Grouping.
Context `{Libraries}.
Hypothesis Hsorts : sorts.

(** The groups with one sum each, arranged by descending sum. *)
Lemma summed_groups (total : list num → num) (df : list Row) :
  let groups :=
    Pandas.sort_values_descending snd
      ((λ g, (g.1, total g.2)) <$> groupby_Description df) in
  NoDup (groups.*1)
  ∧ (∀ k v, (k, v) ∈ groups ↔
       k ∈ Description <$> df
       ∧ v = total (Amount <$> filter (λ row, Description row = k) df))
  ∧ StronglySorted descending groups.
Proof.
  intros groups. subst groups.
  set (G := (λ g : string * list num, (g.1, total g.2)) <$> groupby_Description df).
  assert (HG1 : G.*1 = Pandas.group_keys (Description <$> df)).
  { unfold G, groupby_Description.
    rewrite <- !list_fmap_compose. apply list_fmap_id. }
  split; [|split].
  - rewrite sort_values_descending_Permutation, HG1 by done.
    eapply StronglySorted_irrefl_NoDup; [apply string_lt_irrefl|apply group_keys_sorted].
  - intros k v. rewrite sort_values_descending_Permutation by done.
    unfold G, groupby_Description. rewrite <- list_fmap_compose, list_elem_of_fmap. split.
    + intros (k' & Heq & Hk'). simpl in Heq. simplify_eq.
      split; [by apply elem_of_group_keys|done].
    + intros [Hk ->]. exists k. split; [done|]. by apply elem_of_group_keys.
  - by apply sort_values_descending_sorted.
Qed.

(** C8. For every row set and every sorting routine that
    arranges keys in ascending order, the grouping summary of the chart
    view and of the export has one group per Description, holds for each
    group the sum of its amounts as they stand in the Amount column (no
    sign from the Type, no absolute value; the chart view sums the
    column's values, the export their conversions to float), arranges
    the groups by descending sum, and keeps the first 10. Nothing is said
    of the order among groups of equal sum. *)
Theorem top_groups_descending_by_stored_sum (df : list Row) :
  ∃ chart_groups export_groups : list (string * num),
    Charts.type_sums df = take 10 chart_groups
    ∧ PdfCharts.pie_data df = take 10 export_groups
    ∧ NoDup (chart_groups.*1) ∧ NoDup (export_groups.*1)
    ∧ (∀ k v, (k, v) ∈ chart_groups ↔
         k ∈ Description <$> df
         ∧ v = GroupBy_sum (Amount <$> filter (λ row, Description row = k) df))
    ∧ (∀ k v, (k, v) ∈ export_groups ↔
         k ∈ Description <$> df
         ∧ v = Series_sum (astype_float
                             <$> (Amount <$> filter (λ row, Description row = k) df)))
    ∧ StronglySorted descending chart_groups
    ∧ StronglySorted descending export_groups.
Proof.
  destruct (summed_groups GroupBy_sum df) as (Hc1 & Hc2 & Hc3).
  destruct (summed_groups (λ amounts, Series_sum (astype_float <$> amounts)) df)
    as (He1 & He2 & He3).
  eexists _, _. split; [reflexivity|]. split; [reflexivity|]. done.
Qed.
End Grouping.

Section GroupingExamples.
Local Existing Instance small_integers.

(** Three groups on small integers, with the insertion sort. *)
Lemma top_groups_descending_by_stored_sum_three_groups :
  ∃ chart_groups export_groups : list (string * Z),
    Charts.type_sums
      [mkRow "rent" "Jan-1" "Expense" 30; mkRow "food" "Jan-2" "Expense" 50;
       mkRow "food" "Jan-3" "Expense" 20; mkRow "gift" "Jan-3" "Income" 40]
    = take 10 chart_groups
    ∧ PdfCharts.pie_data
        [mkRow "rent" "Jan-1" "Expense" 30; mkRow "food" "Jan-2" "Expense" 50;
         mkRow "food" "Jan-3" "Expense" 20; mkRow "gift" "Jan-3" "Income" 40]
      = take 10 export_groups
    ∧ chart_groups = [("food", 70); ("gift", 40); ("rent", 30)]
    ∧ export_groups = [("food", 70); ("gift", 40); ("rent", 30)].
Proof.
  destruct (top_groups_descending_by_stored_sum small_integers_sorts
              [@mkRow small_integers "rent" "Jan-1" "Expense" 30;
               @mkRow small_integers "food" "Jan-2" "Expense" 50;
               @mkRow small_integers "food" "Jan-3" "Expense" 20;
               @mkRow small_integers "gift" "Jan-3" "Income" 40])
    as (chart_groups & export_groups & Hchart & Hexport & _).
  exists (Charts.type_sums
            [@mkRow small_integers "rent" "Jan-1" "Expense" 30;
             @mkRow small_integers "food" "Jan-2" "Expense" 50;
             @mkRow small_integers "food" "Jan-3" "Expense" 20;
             @mkRow small_integers "gift" "Jan-3" "Income" 40]).
  exists (PdfCharts.pie_data
            [@mkRow small_integers "rent" "Jan-1" "Expense" 30;
             @mkRow small_integers "food" "Jan-2" "Expense" 50;
             @mkRow small_integers "food" "Jan-3" "Expense" 20;
             @mkRow small_integers "gift" "Jan-3" "Income" 40]).
  split; [by rewrite Hchart, take_take|].
  split; [by rewrite Hexport, take_take|].
  split; reflexivity.
Defined.

(** The sum of a group is that of the stored amounts: a negative amount
    lowers it. *)
Example top_groups_negative_amount :
  Charts.type_sums
    [mkRow "food" "Jan-1" "Expense" 10; mkRow "food" "Jan-2" "Expense" (-4)]
  = [("food", 6)].
Proof. reflexivity. Qed.
End GroupingExamples.

(** C8, as stated, fails: groups of equal sum do not come out in the order
    in which they were first met. [groupby] arranges the groups by their
    key before the sort sees them, so the rows rent, food and the rows
    food, rent give the same summary, whatever the sorting routine: it
    cannot begin with rent for the first and with food for the second. *)
Lemma top_groups_ties_not_first_encountered :
  ¬ ∃ argsort : list Z → list nat,
      @Charts.type_sums (small_integers_sorted_by argsort)
        [@mkRow (small_integers_sorted_by argsort) "rent" "Jan-1" "Expense" 10;
         @mkRow (small_integers_sorted_by argsort) "food" "Jan-2" "Expense" 10]
      = [("rent", 10); ("food", 10)]
      ∧ @Charts.type_sums (small_integers_sorted_by argsort)
          [@mkRow (small_integers_sorted_by argsort) "food" "Jan-2" "Expense" 10;
           @mkRow (small_integers_sorted_by argsort) "rent" "Jan-1" "Expense" 10]
        = [("food", 10); ("rent", 10)].
Proof.
  intros (argsort & H1 & H2).
  vm_compute in H1, H2. rewrite H1 in H2. discriminate H2.
Qed.
(** ** The balance series of the export against that of the chart view *)

Lemma elem_of_iloc {A} (rows : list A) indexer x : x ∈ Pandas.iloc rows indexer → x ∈ rows.
Proof.
  unfold Pandas.iloc. intros (i & _ & Hi)%list_elem_of_omap.
  by eapply list_elem_of_lookup_2.
Qed.

Section ChartAndExport.
Context `{Libraries}.
Variable parse_datetime : string → parsed_date.

Local Abbreviation parsed := (parsed parse_datetime).
Local Abbreviation line_row := (line_row parse_datetime).
Local Abbreviation time_row := (time_row parse_datetime).
Local Abbreviation dated := (dated parse_datetime).
Local Abbreviation date0 := (λ r : LineRow, default 0 (ParsedDate r)).

Lemma to_datetime_cases (df : list Row) :
  match Pandas.to_datetime parse_datetime (Date <$> df) with
  | Ok dates =>
      dates = parsed <$> df
      ∧ Forall (λ row, parse_datetime (Date row) ≠ Unparseable) df
  | Err e =>
      e = ValueError
      ∧ Exists (λ row, parse_datetime (Date row) = Unparseable) df
  end.
Proof.
  induction df as [|row df IH]; [by split|].
  rewrite fmap_cons. simpl.
  destruct (parse_datetime (Date row)) as [t| |] eqn:Hrow.
  - destruct (Pandas.to_datetime _ _) as [dates|e].
    + destruct IH as [-> Hall]. split.
      * rewrite ?fmap_cons. f_equal.
        unfold parsed, Pandas.to_datetime_coerce. by rewrite Hrow.
      * constructor; [by rewrite Hrow|done].
    + destruct IH as [-> Hex]. split; [done|by right].
  - destruct (Pandas.to_datetime _ _) as [dates|e].
    + destruct IH as [-> Hall]. split.
      * rewrite ?fmap_cons. f_equal.
        unfold parsed, Pandas.to_datetime_coerce. by rewrite Hrow.
      * constructor; [by rewrite Hrow|done].
    + destruct IH as [-> Hex]. split; [done|by right].
  - split; [done|by left].
Qed.

(** The rows of the chart view's frame are made of rows of the input. *)
Lemma line_chart_frame_made_of_rows df :
  Forall (λ r, ∃ row, row ∈ df ∧ r = line_row row)
         (Charts.line_chart_frame parse_datetime df).
Proof.
  rewrite line_chart_frame_unfold. apply Forall_forall.
  intros r (row & -> & Hrow)%elem_of_iloc%list_elem_of_fmap.
  apply list_elem_of_filter in Hrow as [_ Hrow]. eauto.
Qed.

(** The frame of the export, where it is defined: the rows of the chart
    view's frame in their order, made with the amount as a float, and
    after them the rows without a date in the order of the input. *)
Lemma time_chart_frame_rows df :
  Pandas.sort_values ParsedDate (time_row <$> df)
  = (time_row <$> (source <$> Charts.line_chart_frame parse_datetime df))
    ++ (time_row <$> filter (λ row, ¬ is_Some (parsed row)) df).
Proof.
  unfold Pandas.sort_values. rewrite !filter_fmap_list. simpl. f_equal.
  fold (dated df). rewrite line_chart_frame_unfold.
  rewrite <- !list_fmap_compose, <- !iloc_fmap. f_equal.
  by rewrite <- list_fmap_compose.
Qed.

Lemma plotted_prefix (a b : list LineRow) : plotted a `prefix_of` plotted (a ++ b).
Proof.
  unfold plotted. rewrite !fmap_app.
  destruct (cumsum_prefix (SignedAmount <$> a) (SignedAmount <$> b)) as [rest ->].
  rewrite zip_with_app by (by rewrite cumsum_length, !length_fmap).
  by eexists.
Qed.

(** X3. Where every date is a timestamp and every amount is a float
    already, the export is defined and plots the series of the chart
    view. *)
Lemma time_chart_agrees_on_timestamps (df : list Row) :
  Forall (λ row, ∃ t, parse_datetime (Date row) = Timestamp t) df →
  Forall (λ row, astype_float (Amount row) = Amount row) df →
  PdfCharts.time_chart_data parse_datetime df
  = Ok (Charts._create_line_chart parse_datetime df).
Proof.
  intros Hdates Hfloat.
  unfold PdfCharts.time_chart_data, PdfCharts.time_chart_frame.
  pose proof (to_datetime_cases df) as Hcases.
  destruct (Pandas.to_datetime parse_datetime (Date <$> df)) as [dates|e].
  2:{ destruct Hcases as [_ Hex]. apply Exists_exists in Hex as (row & Hrow & Hun).
      rewrite Forall_forall in Hdates. destruct (Hdates row Hrow) as [t Ht]. congruence. }
  destruct Hcases as [-> _]. rewrite zip_with_fmap_r, zip_with_diag.
  change (λ x : Row, mkLineRow x (signed (Type_ x) (astype_float (Amount x))) (parsed x))
    with time_row.
  rewrite time_chart_frame_rows.
  rewrite (filter_none_Forall (λ row, ¬ is_Some (parsed row))), fmap_nil, app_nil_r.
  2:{ eapply Forall_impl; [exact Hdates|]. intros row [t Ht] Hn. apply Hn.
      unfold parsed, Pandas.to_datetime_coerce. rewrite Ht. by eexists. }
  unfold Charts._create_line_chart. do 2 f_equal.
  rewrite <- list_fmap_compose.
  transitivity (id <$> Charts.line_chart_frame parse_datetime df); [|apply list_fmap_id].
  apply Forall_fmap_ext. eapply Forall_impl; [apply line_chart_frame_made_of_rows|].
  intros r (row & Hrow & ->). simpl. rewrite Forall_forall in Hfloat.
  unfold time_row, line_row. simpl.
  unfold signed_amount. by rewrite (Hfloat row Hrow).
Qed.

(** X12. The series of the PDF export, in full: it is defined exactly when
    no Date is a text that is no date, and raises ValueError otherwise;
    where defined, its rows are the rows of the chart view's frame in
    their order followed by the rows whose date is missing in the order of
    the input, with the amounts converted to float and the balance running
    on over all of them; and where every amount is a float already, it
    begins with the series of the chart view. *)
Theorem export_series_is_chart_series_then_undated (df : list Row) :
  match PdfCharts.time_chart_data parse_datetime df with
  | Ok series =>
      Forall (λ row, parse_datetime (Date row) ≠ Unparseable) df
      ∧ series
        = plotted ((time_row <$> (source <$> Charts.line_chart_frame parse_datetime df))
                   ++ (time_row <$> filter (λ row, parse_datetime (Date row) = NaT) df))
      ∧ (Forall (λ row, astype_float (Amount row) = Amount row) df →
         Charts._create_line_chart parse_datetime df `prefix_of` series)
  | Err e =>
      e = ValueError
      ∧ Exists (λ row, parse_datetime (Date row) = Unparseable) df
  end.
Proof.
  unfold PdfCharts.time_chart_data, PdfCharts.time_chart_frame.
  pose proof (to_datetime_cases df) as Hcases.
  destruct (Pandas.to_datetime parse_datetime (Date <$> df)) as [dates|e]; [|done].
  destruct Hcases as [-> Hall]. split; [done|].
  rewrite zip_with_fmap_r, zip_with_diag.
  change (λ x : Row, mkLineRow x (signed (Type_ x) (astype_float (Amount x))) (parsed x))
    with time_row.
  rewrite time_chart_frame_rows.
  assert (Hundated : filter (λ row, ¬ is_Some (parsed row)) df
                     = filter (λ row, parse_datetime (Date row) = NaT) df).
  { apply filter_ext_Forall. eapply Forall_impl; [exact Hall|].
    intros row Hrow. unfold parsed, Pandas.to_datetime_coerce.
    simpl in Hrow. destruct (parse_datetime (Date row)) as [t| |]; [| |done].
    - split; [|done]. intros Hn. destruct Hn. by eexists.
    - split; [done|]. by intros _ [? ?]. }
  rewrite Hundated. split; [done|].
  intros Hfloat. unfold Charts._create_line_chart.
  replace (time_row <$> (source <$> Charts.line_chart_frame parse_datetime df))
    with (Charts.line_chart_frame parse_datetime df); [apply plotted_prefix|].
  rewrite <- list_fmap_compose. symmetry.
  transitivity (id <$> Charts.line_chart_frame parse_datetime df); [|apply list_fmap_id].
  apply Forall_fmap_ext. eapply Forall_impl; [apply line_chart_frame_made_of_rows|].
  intros r (row & Hrow & ->). simpl. rewrite Forall_forall in Hfloat.
  unfold time_row, line_row. simpl.
  unfold signed_amount. by rewrite (Hfloat row Hrow).
Qed.

(** A text that is no date stops the export's derivation. *)
Lemma time_chart_raises (df : list Row) row :
  row ∈ df → parse_datetime (Date row) = Unparseable →
  PdfCharts.time_chart_data parse_datetime df = Err ValueError.
Proof.
  intros Hin Hrow. unfold PdfCharts.time_chart_data, PdfCharts.time_chart_frame.
  pose proof (to_datetime_cases df) as Hcases.
  destruct (Pandas.to_datetime parse_datetime (Date <$> df)) as [dates|e].
  - destruct Hcases as [_ Hall]. rewrite Forall_forall in Hall. by destruct (Hall row Hin).
  - by destruct Hcases as [-> _].
Qed.
End ChartAndExport.

Section ChartAndExportExamples.
Local Existing Instance small_integers.

(** The agreement on the worked example, by the lemma above. *)
Lemma time_chart_agrees_on_example :
  PdfCharts.time_chart_data sample_datetime
    [mkRow "salary" "Jan-1" "Income" 100; mkRow "rent" "Jan-3" "Expense" 30;
     mkRow "gift" "Jan-2" "Income" 20]
  = Ok (Charts._create_line_chart sample_datetime
          [mkRow "salary" "Jan-1" "Income" 100; mkRow "rent" "Jan-3" "Expense" 30;
           mkRow "gift" "Jan-2" "Income" 20]).
Proof.
  apply (time_chart_agrees_on_timestamps (H := small_integers) sample_datetime).
  - repeat constructor; eexists; reflexivity.
  - repeat constructor.
Defined.

(** C9. The chart view and the export derive the running balance with two
    functions that differ on dates that do not parse: on a row set with a
    text that is no date the chart view drops the row and returns a series
    while the export raises, and on a row whose date is missing the chart
    view drops the row while the export keeps it, dateless, at the end. *)
Theorem chart_and_export_balance_series_differ :
  Charts._create_line_chart sample_datetime
    [mkRow "salary" "Jan-1" "Income" 100; mkRow "rent" "soon" "Expense" 30]
  = [(Some 1, 100)]
  ∧ PdfCharts.time_chart_data sample_datetime
      [mkRow "salary" "Jan-1" "Income" 100; mkRow "rent" "soon" "Expense" 30]
    = Err ValueError
  ∧ Charts._create_line_chart sample_datetime
      [mkRow "rent" "" "Expense" 30; mkRow "salary" "Jan-1" "Income" 100]
    = [(Some 1, 100)]
  ∧ PdfCharts.time_chart_data sample_datetime
      [mkRow "rent" "" "Expense" 30; mkRow "salary" "Jan-1" "Income" 100]
    = Ok [(Some 1, 100); (None, 70)].
Proof. by repeat split. Qed.
End ChartAndExportExamples.

(** ** The reentrancy flag and the edit history *)

Lemma set_tableWidget_id `{Libraries} st : set_tableWidget (λ t, t) st = st.
Proof. by destruct st. Qed.

Lemma store_item_out_of_range r c text table :
  in_range table r c = false → store_item r c text table = table.
Proof. unfold store_item. by intros ->. Qed.

Section Reentrancy.
Context `{Libraries}.
Variable setItem_raises : QTableWidget → nat → nat → string → option exn.

Local Abbreviation slot := (MainWindow._on_item_changed setItem_raises).

(** With the flag set the slot returns at once. *)
Lemma _on_item_changed_ignored fuel r c st :
  _ignore_change st = true → slot (S fuel) r c st = Returned () st.
Proof. intros Hflag. simpl. by rewrite Hflag. Qed.

Local Arguments MainWindow._on_item_changed : simpl never.

(** [setItem] while the flag is set: it raises, or it stores the text. *)
Lemma setItem_ignored fuel r c text st :
  _ignore_change st = true →
  setItem setItem_raises (slot (S fuel)) r c text st
  = match setItem_raises (tableWidget st) r c text with
    | Some e => Raised e st
    | None => Returned () (set_tableWidget (store_item r c text) st)
    end.
Proof.
  intros Hflag. unfold setItem.
  destruct (setItem_raises _ _ _ _); [done|].
  destruct (in_range (tableWidget st) r c) eqn:Hr.
  - by rewrite _on_item_changed_ignored.
  - f_equal. destruct st. unfold set_tableWidget. simpl in *.
    by rewrite store_item_out_of_range.
Qed.

(** The two methods of the command: what they do to a state. *)
Lemma EditCellCommand_undo_run fuel cmd st :
  EditCellCommand_undo setItem_raises (slot (S fuel)) cmd st
  = match setItem_raises (tableWidget st) (row cmd) (col cmd) (old_value cmd) with
    | Some e => Raised e (set_ignore_change true st)
    | None =>
        Returned () (set_ignore_change false
          (set_tableWidget (store_item (row cmd) (col cmd) (old_value cmd)) st))
    end.
Proof.
  unfold EditCellCommand_undo, mbind, M_bind, modify.
  rewrite setItem_ignored by done. simpl.
  by destruct (setItem_raises _ _ _ _).
Qed.

Lemma EditCellCommand_redo_run fuel cmd st :
  EditCellCommand_redo setItem_raises (slot (S fuel)) cmd st
  = match setItem_raises (tableWidget st) (row cmd) (col cmd) (new_value cmd) with
    | Some e => Raised e (set_ignore_change true st)
    | None =>
        Returned () (set_ignore_change false
          (set_tableWidget (store_item (row cmd) (col cmd) (new_value cmd)) st))
    end.
Proof.
  unfold EditCellCommand_redo, mbind, M_bind, modify.
  rewrite setItem_ignored by done. simpl.
  by destruct (setItem_raises _ _ _ _).
Qed.


Lemma undo_run fuel st :
  MainWindow.undo setItem_raises (S fuel) st
  = match index (undo_stack st) with
    | O => Returned () (set_statusBar "Undo" (set_ignore_change false (set_ignore_change true st)))
    | S idx =>
        match command_list (undo_stack st) !! idx with
        | None => Returned () (set_statusBar "Undo" (set_ignore_change false (set_ignore_change true st)))
        | Some cmd =>
            match setItem_raises (tableWidget st) (row cmd) (col cmd) (old_value cmd) with
            | Some e =>
                Raised e (set_undo_stack (λ s, mkStack (command_list s) idx)
                            (set_ignore_change true st))
            | None =>
                Returned () (set_statusBar "Undo" (set_ignore_change false
                  (set_undo_stack (λ s, mkStack (command_list s) idx)
                     (set_tableWidget (store_item (row cmd) (col cmd) (old_value cmd)) st))))
            end
        end
    end.
Proof.
  unfold MainWindow.undo, QUndoStack_undo, mbind, M_bind, modify, get_state,
    MainWindow._show_status. simpl.
  destruct (index (undo_stack st)) as [|idx]; [done|].
  destruct (command_list (undo_stack st) !! idx) as [cmd|]; [|done].
  unfold try_finally. rewrite EditCellCommand_undo_run. simpl.
  by destruct (setItem_raises _ _ _ _).
Qed.

Lemma redo_run fuel st :
  MainWindow.redo setItem_raises (S fuel) st
  = match command_list (undo_stack st) !! index (undo_stack st) with
    | None => Returned () (set_statusBar "Redo" (set_ignore_change false (set_ignore_change true st)))
    | Some cmd =>
        match setItem_raises (tableWidget st) (row cmd) (col cmd) (new_value cmd) with
        | Some e =>
            Raised e (set_undo_stack (λ s, mkStack (command_list s) (S (index (undo_stack st))))
                        (set_ignore_change true st))
        | None =>
            Returned () (set_statusBar "Redo" (set_ignore_change false
              (set_undo_stack (λ s, mkStack (command_list s) (S (index (undo_stack st))))
                 (set_tableWidget (store_item (row cmd) (col cmd) (new_value cmd)) st))))
        end
    end.
Proof.
  unfold MainWindow.redo, QUndoStack_redo, mbind, M_bind, modify, get_state,
    MainWindow._show_status. simpl.
  destruct (command_list (undo_stack st) !! index (undo_stack st)) as [cmd|]; [|done].
  unfold try_finally. rewrite EditCellCommand_redo_run. simpl.
  by destruct (setItem_raises _ _ _ _).
Qed.

End Reentrancy.


(** ** Undo and redo of a cell edit *)

Lemma in_range_store_item table r c text r' c' :
  in_range (store_item r c text table) r' c' = in_range table r' c'.
Proof. unfold store_item. by destruct (in_range table r c). Qed.

Lemma item_text_store_item table r c text :
  in_range table r c = true → item_text (store_item r c text table) r c = text.
Proof.
  intros Hr. unfold store_item, item_text. rewrite Hr. simpl.
  by rewrite lookup_insert_eq.
Qed.

Lemma item_text_store_item_ne table r c text r' c' :
  (r, c) ≠ (r', c') → item_text (store_item r c text table) r' c' = item_text table r' c'.
Proof.
  intros Hne. unfold store_item, item_text.
  destruct (in_range table r c); [|done]. simpl. by rewrite lookup_insert_ne.
Qed.

Lemma store_item_twice table r c text text' :
  store_item r c text' (store_item r c text table) = store_item r c text' table.
Proof.
  unfold store_item. destruct (in_range table r c) eqn:Hr; simpl.
  - unfold in_range in *. simpl. rewrite Hr. by rewrite insert_insert_eq.
  - by rewrite Hr.
Qed.

Section EditUndoRedo.
Context `{Libraries}.
Local Abbreviation qt := qt_setItem_raises.
Local Arguments MainWindow._on_item_changed : simpl never.

(** A user edit of a cell of the grid records one command and leaves the
    text in the cell. *)
Lemma edit_cell_run fuel r c text st :
  in_range (tableWidget st) r c = true →
  _ignore_change st = false →
  MainWindow.edit_cell qt (S (S fuel)) r c text st
  = Returned ()
      (set_undo_stack
         (λ s, mkStack
            (take (index s) (command_list s)
             ++ [mkEdit r c
                   (if bool_decide (_last_cell st = Some (r, c))
                    then default "" (_last_value st) else "")
                   text])
            (S (index s)))
         (set_ignore_change false (set_tableWidget (store_item r c text) st))).
Proof.
  intros Hr Hflag. unfold MainWindow.edit_cell. rewrite Hr.
  change (MainWindow._on_item_changed qt (S (S fuel)) r c ?s)
    with (if _ignore_change s then Returned () s else
            QUndoStack_push qt (MainWindow._on_item_changed qt (S fuel))
              (mkEdit r c
                 (if bool_decide (_last_cell s = Some (r, c))
                  then default "" (_last_value s) else "")
                 (item_text (tableWidget s) r c)) s).
  simpl. rewrite Hflag.
  unfold QUndoStack_push, try_finally. rewrite EditCellCommand_redo_run.
  simpl. rewrite item_text_store_item by done.
  unfold modify. f_equal. destruct st as [t s f lc lv cf sb sh fs]. simpl in *.
  unfold set_undo_stack, set_ignore_change, set_tableWidget. simpl.
  by rewrite store_item_twice.
Qed.

(** X1. Where the user clicked the cell before editing it, undo() puts
    back the texts the grid held before the edit and redo() makes the grid
    and the undo stack what they were after the edit. *)
Lemma undo_redo_round_trip_after_click fuel r c text st :
  in_range (tableWidget st) r c = true →
  _ignore_change st = false →
  (index (undo_stack st) ≤ length (command_list (undo_stack st)))%nat →
  ∃ st1 st2 st3 st4,
    MainWindow._on_cell_clicked r c st = Returned () st1
    ∧ MainWindow.edit_cell qt (S (S fuel)) r c text st1 = Returned () st2
    ∧ MainWindow.undo qt (S fuel) st2 = Returned () st3
    ∧ MainWindow.redo qt (S fuel) st3 = Returned () st4
    ∧ item_text (tableWidget st2) r c = text
    ∧ (∀ r' c', item_text (tableWidget st3) r' c' = item_text (tableWidget st) r' c')
    ∧ tableWidget st4 = tableWidget st2
    ∧ undo_stack st4 = undo_stack st2.
Proof.
  intros Hr Hflag Hidx.
  destruct st as [t [cl idx] f lc lv cf sb sh fs]. simpl in *. subst f.
  eexists _, _, _, _. split; [reflexivity|].
  split; [by apply edit_cell_run|].
  assert (Hlook : (take idx cl ++ [mkEdit r c (item_text t r c) text]) !! idx
                  = Some (mkEdit r c (item_text t r c) text)).
  { rewrite lookup_app_r by (rewrite length_take; lia).
    rewrite length_take, Nat.min_l by done. by rewrite Nat.sub_diag. }
  split.
  { rewrite undo_run. simpl. case_bool_decide; [|done].
    rewrite Hlook. reflexivity. }
  split.
  { rewrite redo_run. simpl. rewrite Hlook. reflexivity. }
  simpl. split; [by apply item_text_store_item|].
  split; [|split].
  - intros r' c'. rewrite store_item_twice.
    destruct (decide ((r, c) = (r', c'))) as [[= <- <-]|Hne].
    + by apply item_text_store_item.
    + by apply item_text_store_item_ne.
  - by rewrite !store_item_twice.
  - by case_bool_decide.
Qed.
End EditUndoRedo.

(** C3. An edit of a cell the user did not click first (reached with the
    keyboard, say) is recorded with the empty text as its old value: after
    the edit of a cell that held "x" to "y", undo() leaves the cell empty
    instead of restoring "x"; redo() then sets "y" again. *)
Theorem undo_without_click_does_not_restore `{Libraries} :
  ∃ st st1 st2 st3,
    st = mkApp one_cell (mkStack [] 0) false None None None "Ready" [] ∅
    ∧ MainWindow.edit_cell qt_setItem_raises 2 0 0 "y" st = Returned () st1
    ∧ MainWindow.undo qt_setItem_raises 1 st1 = Returned () st2
    ∧ MainWindow.redo qt_setItem_raises 1 st2 = Returned () st3
    ∧ item_text (tableWidget st) 0 0 = "x"
    ∧ item_text (tableWidget st1) 0 0 = "y"
    ∧ command_list (undo_stack st1) = [mkEdit 0 0 "" "y"]
    ∧ item_text (tableWidget st2) 0 0 = ""
    ∧ item_text (tableWidget st3) 0 0 = "y".
Proof.
  eexists _, _, _, _. split; [reflexivity|].
  split; [by apply edit_cell_run|].
  split; [by rewrite undo_run|].
  split; [by rewrite redo_run|].
  by repeat split.
Qed.

Section EditExamples.
Local Existing Instance small_integers.

(** The same edit after a click on the cell, by the round trip above: the
    text comes back. *)
Example undo_after_click_restores :
  ∃ st1 st2 st3 st4,
    MainWindow._on_cell_clicked 0 0
      (mkApp one_cell (mkStack [] 0) false None None None "Ready" [] ∅) = Returned () st1
    ∧ MainWindow.edit_cell qt_setItem_raises 2 0 0 "y" st1 = Returned () st2
    ∧ MainWindow.undo qt_setItem_raises 1 st2 = Returned () st3
    ∧ MainWindow.redo qt_setItem_raises 1 st3 = Returned () st4
    ∧ item_text (tableWidget st2) 0 0 = "y"
    ∧ item_text (tableWidget st3) 0 0 = "x"
    ∧ tableWidget st4 = tableWidget st2.
Proof.
  destruct (undo_redo_round_trip_after_click (H := small_integers) 0 0 0 "y"
              (mkApp one_cell (mkStack [] 0) false None None None "Ready" [] ∅))
    as (st1 & st2 & st3 & st4 & H1 & H2 & H3 & H4 & H5 & H6 & H7 & _);
    [reflexivity|reflexivity|simpl; lia|].
  exists st1, st2, st3, st4. repeat split; first [done | by rewrite H6].
Defined.
End EditExamples.

(** ** The edit history under every behaviour of the toolkit *)

Section HistoryFacts.
Context `{Libraries}.
Variable setItem_raises : QTableWidget → nat → nat → string → option exn.

Local Abbreviation slot := (MainWindow._on_item_changed setItem_raises).
Local Arguments MainWindow._on_item_changed : simpl never.

(** The slot, run with the flag clear: the recorded command is executed,
    which stores its text once more, and pushed; if the toolkit raises, the
    flag is left set, and the stack pushes the command all the same. *)
Lemma _on_item_changed_run fuel r c st :
  _ignore_change st = false →
  slot (S (S fuel)) r c st
  = match setItem_raises (tableWidget st) r c (item_text (tableWidget st) r c) with
    | Some e =>
        Raised e (set_undo_stack (pushed (recorded st r c)) (set_ignore_change true st))
    | None =>
        Returned ()
          (set_undo_stack (pushed (recorded st r c))
             (set_ignore_change false
                (set_tableWidget
                   (store_item r c (item_text (tableWidget st) r c)) st)))
    end.
Proof.
  intros Hflag.
  change (slot (S (S fuel)) r c st)
    with (if _ignore_change st then Returned () st else
            QUndoStack_push setItem_raises (slot (S fuel)) (recorded st r c) st).
  rewrite Hflag. unfold QUndoStack_push, try_finally.
  rewrite EditCellCommand_redo_run. simpl.
  by destruct (setItem_raises _ _ _ _).
Qed.

(** [setItem] of the ui's table, in terms of the slot. *)
Lemma ui_setItem_unfold fuel r c text st :
  Actions.ui_setItem setItem_raises fuel r c text st
  = match setItem_raises (tableWidget st) r c text with
    | Some e => Raised e st
    | None =>
        if in_range (tableWidget st) r c
        then slot fuel r c (set_tableWidget (store_item r c text) st)
        else Returned () st
    end.
Proof. reflexivity. Qed.

Lemma stack_in_bounds_pushed cmd st :
  stack_in_bounds st → stack_in_bounds (set_undo_stack (pushed cmd) st).
Proof.
  unfold stack_in_bounds. destruct st as [t [cl idx] f lc lv cf sb sh fs]. simpl.
  intros Hidx. rewrite length_app, length_take. simpl. lia.
Qed.

Lemma slot_maintains_bounds fuel r c :
  maintains stack_in_bounds (slot (S (S fuel)) r c).
Proof.
  intros st Hst. destruct (_ignore_change st) eqn:Hflag.
  - by rewrite _on_item_changed_ignored.
  - rewrite _on_item_changed_run by done.
    destruct (setItem_raises _ _ _ _); by apply stack_in_bounds_pushed.
Qed.

Lemma ui_setItem_maintains_bounds fuel r c text :
  maintains stack_in_bounds (Actions.ui_setItem setItem_raises (S (S fuel)) r c text).
Proof.
  intros st Hst. rewrite ui_setItem_unfold.
  destruct (setItem_raises _ _ _ _); [done|].
  destruct (in_range _ _ _); [|done].
  by apply (slot_maintains_bounds fuel r c).
Qed.

Lemma edit_cell_maintains_bounds fuel r c text :
  maintains stack_in_bounds (MainWindow.edit_cell setItem_raises (S (S fuel)) r c text).
Proof.
  intros st Hst. unfold MainWindow.edit_cell.
  destruct (in_range _ _ _); [|done].
  by apply (slot_maintains_bounds fuel r c).
Qed.

Lemma undo_maintains_bounds fuel :
  maintains stack_in_bounds (MainWindow.undo setItem_raises (S fuel)).
Proof.
  intros st Hst. rewrite undo_run. unfold stack_in_bounds in *.
  destruct (index (undo_stack st)) as [|idx] eqn:Hidx; [simpl; lia|].
  destruct (command_list (undo_stack st) !! idx) as [cmd|]; [|simpl; lia].
  destruct (setItem_raises _ _ _ _); simpl; lia.
Qed.

Lemma redo_maintains_bounds fuel :
  maintains stack_in_bounds (MainWindow.redo setItem_raises (S fuel)).
Proof.
  intros st Hst. rewrite redo_run. unfold stack_in_bounds in *.
  destruct (command_list (undo_stack st) !! index (undo_stack st)) as [cmd|] eqn:Hcmd;
    [|simpl; lia].
  apply lookup_lt_Some in Hcmd.
  destruct (setItem_raises _ _ _ _); simpl; lia.
Qed.
End HistoryFacts.

(** ** Properties of the state that statements maintain *)

Section Maintains.
Context `{Libraries}.
Variable I : App → Prop.

Lemma maintains_ret {A} (a : A) : maintains I (mret a).
Proof. by intros st Hst. Qed.

Lemma maintains_bind {A B} (m : M A) (k : A → M B) :
  maintains I m → (∀ a, maintains I (k a)) → maintains I (m ≫= k).
Proof.
  intros Hm Hk st Hst. unfold mbind, M_bind. specialize (Hm st Hst).
  destruct (m st) as [a st'| |]; [|done..]. by apply Hk.
Qed.

Lemma maintains_fmap {A B} (f : A → B) (m : M A) :
  maintains I m → maintains I (f <$> m).
Proof.
  intros Hm st Hst. unfold fmap, M_fmap. specialize (Hm st Hst). by destruct (m st).
Qed.

Lemma maintains_modify (f : App → App) :
  (∀ st, I st → I (f st)) → maintains I (modify f).
Proof. intros Hf st Hst. by apply Hf. Qed.

Lemma maintains_get_state : maintains I get_state.
Proof. by intros st Hst. Qed.

Lemma maintains_raise {A} e : maintains I (raise (A := A) e).
Proof. by intros st Hst. Qed.

Lemma maintains_try_except {A} (body : M A) (handler : exn → M A) :
  maintains I body → (∀ e, maintains I (handler e)) →
  maintains I (try_except body handler).
Proof.
  intros Hb Hh st Hst. unfold try_except. specialize (Hb st Hst).
  destruct (body st) as [a st'|e st'|]; [done| |done]. by apply Hh.
Qed.

Lemma maintains_try_finally {A} (body : M A) (final : M unit) :
  maintains I body → maintains I final → maintains I (try_finally body final).
Proof.
  intros Hb Hf st Hst. unfold try_finally. specialize (Hb st Hst).
  destruct (body st) as [a st'|e st'|]; [| |done].
  - specialize (Hf st' Hb). by destruct (final st').
  - specialize (Hf st' Hb). by destruct (final st').
Qed.

Lemma maintains_for_each {X} (xs : list X) (body : X → M unit) :
  (∀ x, maintains I (body x)) → maintains I (for_each xs body).
Proof.
  intros Hbody. induction xs as [|x xs IH]; simpl; [apply maintains_ret|].
  apply maintains_bind; [done|]. by intros [].
Qed.

Lemma maintains_setItem setItem_raises (slot : nat → nat → M unit) r c text :
  (∀ f st, I st → I (set_tableWidget f st)) →
  (∀ r c, maintains I (slot r c)) →
  maintains I (setItem setItem_raises slot r c text).
Proof.
  intros Htable Hslot st Hst. unfold setItem.
  destruct (setItem_raises _ _ _ _); [done|].
  destruct (in_range _ _ _); [|done].
  apply Hslot. by apply Htable.
Qed.

(** The slot and the [setItem] of the ui's table, two signal deliveries
    deep, maintain what the grid, the flag and the undo stack do not
    bear on. *)
Lemma slot_maintains setItem_raises fuel r c :
  (∀ f st, I st → I (set_tableWidget f st)) →
  (∀ f st, I st → I (set_undo_stack f st)) →
  (∀ b st, I st → I (set_ignore_change b st)) →
  maintains I (MainWindow._on_item_changed setItem_raises (S (S fuel)) r c).
Proof.
  intros Htable Hstack Hflag st Hst. destruct (_ignore_change st) eqn:Hf.
  - by rewrite _on_item_changed_ignored.
  - rewrite _on_item_changed_run by done.
    destruct (setItem_raises _ _ _ _); auto.
Qed.

Lemma ui_setItem_maintains setItem_raises fuel r c text :
  (∀ f st, I st → I (set_tableWidget f st)) →
  (∀ f st, I st → I (set_undo_stack f st)) →
  (∀ b st, I st → I (set_ignore_change b st)) →
  maintains I (Actions.ui_setItem setItem_raises (S (S fuel)) r c text).
Proof.
  intros Htable Hstack Hflag. apply maintains_setItem; [done|].
  intros r' c'. by apply slot_maintains.
Qed.

Hypothesis I_filename : ∀ name st, I st → I (set_current_filename name st).
Hypothesis I_shown : ∀ m st, I st → I (add_shown m st).
Hypothesis I_status : ∀ s st, I st → I (set_statusBar s st).
Hypothesis I_files : ∀ f st, I st → I (set_files f st).
Hypothesis I_table : ∀ f st, I st → I (set_tableWidget f st).

Lemma show_Message_maintains title text : maintains I (show_Message title text).
Proof. apply maintains_modify. intros st. apply I_shown. Qed.

Lemma _show_status_maintains s : maintains I (MainWindow._show_status s).
Proof. apply maintains_modify. intros st. apply I_status. Qed.

(** The reader's [read], given that the table's [setItem] maintains the
    property. *)
Lemma read_maintains (setItem : nat → nat → string → M unit) filename :
  (∀ r c text, maintains I (setItem r c text)) →
  maintains I (CsvReader.read setItem filename).
Proof.
  intros HsetItem. unfold CsvReader.read.
  destruct (String.eqb filename ""); [apply maintains_ret|].
  apply maintains_bind; [apply maintains_modify; intros st; apply I_filename|].
  intros _. apply maintains_bind.
  - apply maintains_try_except.
    + apply maintains_fmap. intros st Hst. unfold CsvReader.read_csv.
      by destruct (files st !! filename) as [[]|].
    + intros e. apply maintains_bind; [apply show_Message_maintains|].
      intros _. apply maintains_ret.
  - intros [df|]; [|apply maintains_ret].
    destruct (negb (CsvReader._check_csv_columns df)); [apply show_Message_maintains|].
    repeat (apply maintains_bind;
            [apply maintains_modify; intros st; apply I_table|intros _]).
    apply maintains_for_each. intros rc. apply HsetItem.
Qed.

(** The savers. *)
Lemma to_csv_maintains df filename : maintains I (CsvReader.to_csv df filename).
Proof. apply maintains_modify. intros st. apply I_files. Qed.

Lemma save_as_maintains filename : maintains I (CsvReader.save_as filename).
Proof.
  unfold CsvReader.save_as. destruct (String.eqb filename ""); [apply maintains_ret|].
  apply maintains_bind; [apply maintains_get_state|]. intros st.
  apply maintains_bind; [apply to_csv_maintains|]. intros _.
  apply maintains_modify. intros st'. apply I_filename.
Qed.

Lemma quick_save_maintains dialog_answer :
  maintains I (CsvReader.quick_save dialog_answer).
Proof.
  unfold CsvReader.quick_save.
  apply maintains_bind; [apply maintains_get_state|]. intros st.
  destruct (current_filename st) as [name|]; [|apply save_as_maintains].
  destruct (String.eqb name ""); [apply save_as_maintains|apply to_csv_maintains].
Qed.

(** The exporter. *)
Lemma export_maintains parse_datetime build_raises df file_path :
  maintains I (PdfExporter.export parse_datetime build_raises df file_path).
Proof.
  unfold PdfExporter.export.
  apply maintains_bind.
  { unfold PdfExporter._check_data. case_bool_decide.
    - apply maintains_bind; [apply show_Message_maintains|]. intros _. apply maintains_ret.
    - apply maintains_ret. }
  intros ok. destruct (negb ok); [apply maintains_ret|].
  destruct (String.eqb file_path ""); [apply maintains_ret|].
  assert (Hmk : maintains I PdfExporter.mkstemp).
  { intros st Hst. unfold PdfExporter.mkstemp. by apply I_files. }
  assert (Hsave : ∀ path image, maintains I (PdfExporter.savefig path image)).
  { intros path image. apply maintains_modify. intros st. apply I_files. }
  apply maintains_bind.
  { unfold PdfExporter._create_chart_images.
    apply maintains_bind.
    { unfold PdfExporter._create_pie_chart. apply maintains_bind; [done|]. intros path.
      destruct (ax_pie_raises (PdfCharts.pie_data df)); [apply maintains_raise|].
      apply maintains_bind; [done|]. intros _. apply maintains_ret. }
    intros pie. apply maintains_bind; [|intros time; apply maintains_ret].
    unfold PdfExporter._create_time_chart. apply maintains_bind; [done|]. intros path.
    destruct (PdfCharts.time_chart_data parse_datetime df); [|apply maintains_raise].
    apply maintains_bind; [done|]. intros _. apply maintains_ret. }
  intros paths. apply maintains_try_finally.
  - apply maintains_try_except.
    + apply maintains_bind; [|intros _; apply show_Message_maintains].
      unfold PdfExporter._build_pdf.
      destruct (build_raises file_path); [apply maintains_raise|].
      apply maintains_modify. intros st. apply I_files.
    + intros e. apply show_Message_maintains.
  - unfold PdfExporter._cleanup_temp_files. apply maintains_for_each.
    intros path. apply maintains_modify. intros st. apply I_files.
Qed.

Lemma save_to_pdf_maintains to_numeric parse_datetime build_raises file_path :
  maintains I (Actions.save_to_pdf to_numeric parse_datetime build_raises file_path).
Proof.
  unfold Actions.save_to_pdf.
  apply maintains_bind; [apply maintains_get_state|]. intros st.
  destruct (_table_to_dataframe to_numeric (tableWidget st)) as [[df|]|e];
    [|apply show_Message_maintains|apply maintains_raise].
  destruct (ledger_rows df) as [rows|e].
  - apply maintains_bind; [apply export_maintains|]. intros _. apply _show_status_maintains.
  - destruct (String.eqb file_path ""); [apply _show_status_maintains|].
    apply maintains_bind; [|intros _; apply maintains_raise].
    intros st' Hst'. unfold PdfExporter.mkstemp. by apply I_files.
Qed.

Lemma charts_maintains to_numeric parse_datetime :
  maintains I (Window.charts to_numeric parse_datetime).
Proof.
  unfold Window.charts.
  apply maintains_bind; [apply maintains_get_state|]. intros st.
  destruct (_table_to_dataframe to_numeric (tableWidget st)) as [[df|]|e];
    [| |apply maintains_raise].
  - destruct (ledger_rows df) as [rows|e]; [|apply maintains_raise].
    destruct (Charts.__init__ parse_datetime rows); [|apply maintains_raise].
    apply maintains_bind; [apply _show_status_maintains|]. intros _. apply maintains_ret.
  - apply maintains_bind; [apply show_Message_maintains|]. intros _. apply maintains_ret.
Qed.
End Maintains.

(** ** Import *)

Lemma _check_csv_columns_spec `{Libraries} df :
  CsvReader._check_csv_columns df = true
  ↔ ∀ c, c ∈ CsvReader.required_columns → c ∈ columns df.
Proof.
  unfold CsvReader._check_csv_columns. rewrite forallb_forall.
  apply forall_proper. intros c. by rewrite <- list_elem_of_In, bool_decide_eq_true.
Qed.

Lemma _check_csv_columns_missing `{Libraries} df c :
  c ∈ CsvReader.required_columns → c ∉ columns df →
  CsvReader._check_csv_columns df = false.
Proof.
  intros Hc Hn. apply not_true_is_false. rewrite _check_csv_columns_spec. naive_solver.
Qed.

(** What saving writes: the labels of the header and the texts of the
    cells of the grid. *)
Lemma get_table_data_grid `{Libraries} (table : QTableWidget) :
  columns (CsvReader.get_table_data table)
  = saved_label table <$> seq 0 (columnCount table)
  ∧ values (CsvReader.get_table_data table)
    = (λ r, (λ c, Text (item_text table r c)) <$> seq 0 (columnCount table))
        <$> seq 0 (rowCount table).
Proof.
  unfold CsvReader.get_table_data, table_texts, saved_label. simpl. split.
  - apply list_fmap_ext. intros i c _. by destruct (horizontalHeaderItem table !! c).
  - rewrite <- list_fmap_compose. apply list_fmap_ext. intros i r _. simpl.
    by rewrite <- list_fmap_compose.
Qed.

(** Every import in which a file is selected ends, however it ends, with
    the selected path as the remembered file name. *)
Lemma read_remembers_selected_path `{Libraries} setItem_raises fuel filename st :
  filename ≠ "" →
  match CsvReader.read (Actions.ui_setItem setItem_raises (S (S fuel))) filename st with
  | Returned _ st' | Raised _ st' => current_filename st' = Some filename
  | OutOfFuel => False
  end.
Proof.
  intros Hname. unfold CsvReader.read.
  rewrite (proj2 (String.eqb_neq _ _)) by done.
  unfold mbind at 1 2. unfold M_bind, modify, try_except, fmap, M_fmap,
    CsvReader.read_csv, show_Message, mret, M_ret. simpl.
  set (st1 := set_current_filename filename st).
  set (I := λ st' : App, current_filename st' = Some filename).
  assert (Hfill : ∀ df, maintains I
    (modify (set_tableWidget (setRowCount (length (values df)))) ;;
     modify (set_tableWidget (setColumnCount (length (columns df)))) ;;
     modify (set_tableWidget (setHorizontalHeaderLabels (columns df))) ;;
     for_each (CsvReader.cells (length (values df)) (length (columns df)))
       (λ rc, Actions.ui_setItem setItem_raises (S (S fuel)) rc.1 rc.2
                (CsvReader.iat_str df rc.1 rc.2)))).
  { intros df.
    repeat (apply maintains_bind; [by apply maintains_modify|intros _]).
    apply maintains_for_each. intros rc. by apply ui_setItem_maintains. }
  destruct (files st !! filename) as [[df| | | |]|] eqn:Hf; simpl; try done.
  destruct (CsvReader._check_csv_columns df); simpl; [|done].
  apply (Hfill df st1). done.
Qed.

Lemma read_missing_column_any `{Libraries} (setItem : nat → nat → string → M unit) filename st df :
  filename ≠ "" →
  files st !! filename = Some (CsvFile df) →
  CsvReader._check_csv_columns df = false →
  CsvReader.read setItem filename st
  = Returned () (add_shown schema_warning (set_current_filename filename st)).
Proof.
  intros Hname Hfile Hcols. unfold CsvReader.read.
  rewrite (proj2 (String.eqb_neq _ _)) by done.
  unfold mbind, M_bind, modify, try_except, fmap, M_fmap, CsvReader.read_csv,
    show_Message, mret, M_ret. simpl.
  rewrite Hfile, Hcols. done.
Qed.

Section ImportFacts.
Context `{Libraries}.
Variable setItem : nat → nat → string → M unit.

(** A selected file that cannot be read: the name is remembered, the
    message shown, and nothing else happens. *)
Lemma read_unreadable filename st :
  filename ≠ "" →
  (∀ df, files st !! filename ≠ Some (CsvFile df)) →
  CsvReader.read setItem filename st
  = Returned () (add_shown read_warning (set_current_filename filename st)).
Proof.
  intros Hname Hfile. unfold CsvReader.read.
  rewrite (proj2 (String.eqb_neq _ _)) by done.
  unfold mbind, M_bind, modify, try_except, fmap, M_fmap, CsvReader.read_csv,
    show_Message, mret, M_ret. simpl.
  destruct (files st !! filename) as [[df| | | |]|] eqn:Hf; try done.
  by destruct (Hfile df).
Qed.

(** A selected file without a required column: the name is remembered,
    the message shown, and nothing else happens. *)
Lemma read_missing_column filename st df :
  filename ≠ "" →
  files st !! filename = Some (CsvFile df) →
  CsvReader._check_csv_columns df = false →
  CsvReader.read setItem filename st
  = Returned () (add_shown schema_warning (set_current_filename filename st)).
Proof.
  intros Hname Hfile Hcols. unfold CsvReader.read.
  rewrite (proj2 (String.eqb_neq _ _)) by done.
  unfold mbind, M_bind, modify, try_except, fmap, M_fmap, CsvReader.read_csv,
    show_Message, mret, M_ret. simpl.
  rewrite Hfile, Hcols. done.
Qed.

(** C6. Importing a CSV whose header lacks one of the required columns
    Description, Date, Type, Amount ends with the missing-columns warning
    and leaves the grid and the Edit History exactly as they were, in the
    reader and in the import action of the main window alike. *)
Theorem import_missing_column_keeps_grid_and_history filename st df c :
  filename ≠ "" →
  files st !! filename = Some (CsvFile df) →
  c ∈ ["Description"; "Date"; "Type"; "Amount"] →
  c ∉ columns df →
  (∃ st',
     CsvReader.read setItem filename st = Returned () st'
     ∧ shown st' = shown st ++ [schema_warning]
     ∧ tableWidget st' = tableWidget st
     ∧ undo_stack st' = undo_stack st
     ∧ files st' = files st)
  ∧ ∀ setItem_raises fuel,
      ∃ st',
        Actions.import_csv setItem_raises fuel filename st = Returned () st'
        ∧ shown st' = shown st ++ [schema_warning]
        ∧ tableWidget st' = tableWidget st
        ∧ undo_stack st' = undo_stack st
        ∧ files st' = files st.
Proof.
  intros Hname Hfile Hc Hn.
  assert (Hcols : CsvReader._check_csv_columns df = false)
    by (by eapply _check_csv_columns_missing).
  split.
  - eexists. split; [by apply (read_missing_column _ _ df)|done].
  - intros setItem_raises fuel. eexists. split.
    + unfold Actions.import_csv, mbind, M_bind.
      rewrite (read_missing_column_any _ _ _ df) by done. reflexivity.
    + done.
Qed.

(** C10. For every import in which the user selects a file, the remembered
    file name is the selected path from before the file is read or its
    columns validated, so it is the selected path however the import ends;
    when the import fails (the file cannot be read, or lacks a required
    column) nothing else of the state changes but the message shown, and a
    later quick save writes the current grid, the labels of its header
    and the texts of its cells, to the selected path and leaves every
    other file, the previously loaded one included, as it was. *)
Theorem failed_import_redirects_quick_save filename st :
  filename ≠ "" →
  (∀ setItem_raises fuel,
     match CsvReader.read (Actions.ui_setItem setItem_raises (S (S fuel))) filename st with
     | Returned _ st' | Raised _ st' => current_filename st' = Some filename
     | OutOfFuel => False
     end)
  ∧ (match files st !! filename with
     | Some (CsvFile df) => CsvReader._check_csv_columns df = false
     | _ => True
     end →
     ∃ st' message,
       CsvReader.read setItem filename st = Returned () st'
       ∧ st' = add_shown message (set_current_filename filename st)
       ∧ current_filename st' = Some filename
       ∧ ∀ dialog_answer,
           ∃ st'' written,
             CsvReader.quick_save dialog_answer st' = Returned () st''
             ∧ files st'' !! filename = Some (CsvFile written)
             ∧ columns written
               = saved_label (tableWidget st) <$> seq 0 (columnCount (tableWidget st))
             ∧ values written
               = (λ r, (λ c, Text (item_text (tableWidget st) r c))
                         <$> seq 0 (columnCount (tableWidget st)))
                   <$> seq 0 (rowCount (tableWidget st))
             ∧ (∀ other, other ≠ filename → files st'' !! other = files st !! other)
             ∧ tableWidget st'' = tableWidget st
             ∧ undo_stack st'' = undo_stack st).
Proof.
  intros Hname. split.
  { intros setItem_raises fuel. by apply read_remembers_selected_path. }
  intros Hfail.
  assert (∃ message, CsvReader.read setItem filename st
            = Returned () (add_shown message (set_current_filename filename st)))
    as [message Hread].
  { destruct (files st !! filename) as [[df| | | |]|] eqn:Hf.
    - exists schema_warning. by eapply read_missing_column.
    - exists read_warning. apply read_unreadable; [done|]. intros df. by rewrite Hf.
    - exists read_warning. apply read_unreadable; [done|]. intros df. by rewrite Hf.
    - exists read_warning. apply read_unreadable; [done|]. intros df. by rewrite Hf.
    - exists read_warning. apply read_unreadable; [done|]. intros df. by rewrite Hf.
    - exists read_warning. apply read_unreadable; [done|]. intros df. by rewrite Hf. }
  exists (add_shown message (set_current_filename filename st)), message.
  split; [done|]. split; [done|]. split; [done|].
  intros dialog_answer.
  destruct (get_table_data_grid (tableWidget st)) as [Hcolumns Hvalues].
  eexists _, (CsvReader.get_table_data (tableWidget st)). split.
  - unfold CsvReader.quick_save, mbind, M_bind, get_state. simpl.
    rewrite (proj2 (String.eqb_neq _ _)) by done. reflexivity.
  - simpl. split; [by rewrite lookup_insert_eq|].
    split; [done|]. split; [done|].
    split; [|done]. intros other Hne. by rewrite lookup_insert_ne.
Qed.
End ImportFacts.

Section ImportExamples.
Local Existing Instance small_integers.

Lemma import_missing_column_keeps_grid_and_history_short :
  ∃ st',
    Actions.import_csv qt_setItem_raises 2 "short.csv" loaded = Returned () st'
    ∧ shown st' = [schema_warning]
    ∧ tableWidget st' = one_cell
    ∧ undo_stack st' = mkStack [mkEdit 0 0 "x" "y"] 1
    ∧ files st' = files loaded.
Proof.
  apply (import_missing_column_keeps_grid_and_history (H := small_integers)
           (Actions.ui_setItem qt_setItem_raises 2) "short.csv" loaded
           (mkFrame ["Description"; "Date"; "Type"] []) "Amount").
  - done.
  - reflexivity.
  - apply (bool_decide_unpack _). by vm_compute.
  - apply (bool_decide_unpack _). by vm_compute.
Defined.

(** The file notes.txt is no CSV file: the import fails, and the quick
    save that follows writes the one label and the one text of the grid
    to notes.txt. *)
Lemma failed_import_redirects_quick_save_notes :
  ∃ st' message,
    CsvReader.read (Actions.ui_setItem qt_setItem_raises 2) "notes.txt" loaded
    = Returned () st'
    ∧ st' = add_shown message (set_current_filename "notes.txt" loaded)
    ∧ current_filename st' = Some "notes.txt"
    ∧ ∀ dialog_answer,
        ∃ st'' written,
          CsvReader.quick_save dialog_answer st' = Returned () st''
          ∧ files st'' !! "notes.txt" = Some (CsvFile written)
          ∧ columns written = ["Amount"]
          ∧ values written = [[Text "x"]]
          ∧ (∀ other, other ≠ "notes.txt" → files st'' !! other = files loaded !! other)
          ∧ tableWidget st'' = tableWidget loaded
          ∧ undo_stack st'' = undo_stack loaded.
Proof.
  apply (failed_import_redirects_quick_save (H := small_integers)
           (Actions.ui_setItem qt_setItem_raises 2) "notes.txt" loaded).
  - done.
  - exact I.
Defined.
End ImportExamples.
(** ** Export: the temporary chart images *)

Section ExportFacts.
Context `{Libraries}.
Variable parse_datetime : string → parsed_date.
Variable build_raises : string → option exn.

Local Abbreviation export := (PdfExporter.export parse_datetime build_raises).

Lemma pie_path_fresh st : pie_path st ∉ dom (files st).
Proof. exact (is_fresh (dom (files st) : gset string)). Qed.

Lemma time_path_fresh st :
  (time_path st ∉ dom (files st)) ∧ (time_path st ≠ pie_path st).
Proof.
  pose proof (is_fresh (({[pie_path st]} ∪ dom (files st)) : gset string)) as Hf.
  fold (time_path st) in Hf. set_solver.
Qed.

(** The two chart images, where both charts are made: the state after
    them and the two paths. *)
Lemma _create_chart_images_run df st series :
  ax_pie_raises (PdfCharts.pie_data df) = None →
  PdfCharts.time_chart_data parse_datetime df = Ok series →
  PdfExporter._create_chart_images parse_datetime df st
  = Returned (pie_path st, time_path st)
      (set_files
         (λ fs, <[time_path st := LineImage series]>
                  (<[time_path st := Blank]>
                     (<[pie_path st := PieImage (PdfCharts.pie_data df)]>
                        (<[pie_path st := Blank]> fs)))) st).
Proof.
  intros Hpie Hseries.
  unfold PdfExporter._create_chart_images, PdfExporter._create_pie_chart,
    PdfExporter._create_time_chart, PdfExporter.mkstemp, PdfExporter.savefig,
    mbind, M_bind, mret, M_ret, modify. simpl.
  rewrite Hpie, Hseries. simpl.
  rewrite !dom_insert_L.
  fold (pie_path st).
  replace ({[pie_path st]} ∪ ({[pie_path st]} ∪ dom (files st)))
    with ({[pie_path st]} ∪ dom (files st)) by set_solver.
  fold (time_path st). by destruct st.
Qed.

(** What follows the chart images: the document, the message and the
    cleanup. *)
Lemma export_after_images file_path elements pie time st :
  try_finally
    (try_except
       (PdfExporter._build_pdf build_raises file_path elements ;;
        PdfExporter._show_message "Success" "PDF exported successfully!")
       (λ e, PdfExporter._show_message "Error" "Failed to export PDF"))
    (PdfExporter._cleanup_temp_files [pie; time]) st
  = Returned ()
      match build_raises file_path with
      | Some _ =>
          set_files (λ fs, delete time (delete pie fs)) (add_shown export_error st)
      | None =>
          set_files (λ fs, delete time (delete pie (<[file_path := Document elements]> fs)))
            (add_shown export_success st)
      end.
Proof.
  unfold try_finally, try_except, PdfExporter._build_pdf, PdfExporter._show_message,
    show_Message, PdfExporter._cleanup_temp_files, raise, modify, mbind, M_bind.
  simpl. destruct st. by destruct (build_raises file_path).
Qed.

Lemma export_run df file_path st series :
  df ≠ [] → file_path ≠ "" →
  ax_pie_raises (PdfCharts.pie_data df) = None →
  PdfCharts.time_chart_data parse_datetime df = Ok series →
  export df file_path st
  = Returned ()
      (let images := λ fs : gmap string File,
         <[time_path st := LineImage series]>
           (<[time_path st := Blank]>
              (<[pie_path st := PieImage (PdfCharts.pie_data df)]>
                 (<[pie_path st := Blank]> fs))) in
       match build_raises file_path with
       | Some _ =>
           set_files (λ fs, delete (time_path st) (delete (pie_path st) (images fs)))
             (add_shown export_error st)
       | None =>
           set_files
             (λ fs, delete (time_path st) (delete (pie_path st)
                      (<[file_path := Document (PdfExporter._create_pdf_elements df
                                                  (pie_path st) (time_path st))]>
                         (images fs))))
             (add_shown export_success st)
       end).
Proof.
  intros Hdf Hpath Hpie Hseries.
  unfold PdfExporter.export, PdfExporter._check_data.
  rewrite bool_decide_false by done.
  unfold mbind at 1. unfold M_bind at 1. unfold mret, M_ret. simpl.
  rewrite (proj2 (String.eqb_neq _ _)) by done.
  unfold mbind at 1. unfold M_bind at 1.
  rewrite (_create_chart_images_run df st series) by done.
  cbn [fst snd]. rewrite export_after_images.
  destruct st. by destruct (build_raises file_path).
Qed.

(** X2. Where both charts are made, the export returns and neither
    temporary image is left, whether the document is built or [doc.build]
    raises; no file but the chosen path is added. *)
Lemma export_removes_temp_files df file_path st series :
  df ≠ [] → file_path ≠ "" →
  ax_pie_raises (PdfCharts.pie_data df) = None →
  PdfCharts.time_chart_data parse_datetime df = Ok series →
  ∃ st',
    export df file_path st = Returned () st'
    ∧ (pie_path st ∉ dom (files st'))
    ∧ (time_path st ∉ dom (files st'))
    ∧ dom (files st') ⊆ dom (files st) ∪ {[file_path]}.
Proof.
  intros Hdf Hpath Hpie Hseries.
  rewrite (export_run df file_path st series) by done.
  eexists. split; [reflexivity|].
  destruct (time_path_fresh st) as [Ht1 Ht2]. pose proof (pie_path_fresh st) as Hp.
  destruct st as [table stack flag cell value name status msgs disk].
  set (pie := pie_path _) in *. set (time := time_path _) in *. clearbody pie time.
  simpl in *.
  destruct (build_raises file_path) as [e|]; simpl;
    rewrite ?dom_delete_L, ?dom_insert_L; set_solver.
Qed.

(** Where [ax.pie] raises, the export raises with it and the temporary
    file of the pie chart stays behind. *)
Lemma export_leaves_pie_file df file_path st e :
  df ≠ [] → file_path ≠ "" →
  ax_pie_raises (PdfCharts.pie_data df) = Some e →
  export df file_path st = Raised e (set_files (<[pie_path st := Blank]>) st).
Proof.
  intros Hdf Hpath Hpie.
  unfold PdfExporter.export, PdfExporter._check_data.
  rewrite bool_decide_false by done.
  unfold mbind, M_bind, mret, M_ret. simpl.
  rewrite (proj2 (String.eqb_neq _ _)) by done.
  unfold PdfExporter._create_chart_images, PdfExporter._create_pie_chart,
    PdfExporter.mkstemp, mbind, M_bind, raise. simpl.
  by rewrite Hpie.
Qed.

(** Where the time chart raises, the export raises with it and both
    temporary files stay behind. *)
Lemma export_leaves_temp_files df file_path st e :
  df ≠ [] → file_path ≠ "" →
  ax_pie_raises (PdfCharts.pie_data df) = None →
  PdfCharts.time_chart_data parse_datetime df = Err e →
  ∃ st',
    export df file_path st = Raised e st'
    ∧ dom (files st') = {[pie_path st; time_path st]} ∪ dom (files st)
    ∧ (pie_path st ∉ dom (files st))
    ∧ (time_path st ∉ dom (files st))
    ∧ pie_path st ≠ time_path st.
Proof.
  intros Hdf Hpath Hpie Hseries.
  unfold PdfExporter.export, PdfExporter._check_data.
  rewrite bool_decide_false by done.
  unfold mbind, M_bind, mret, M_ret. simpl.
  rewrite (proj2 (String.eqb_neq _ _)) by done.
  unfold PdfExporter._create_chart_images, PdfExporter._create_pie_chart,
    PdfExporter._create_time_chart, PdfExporter.mkstemp, PdfExporter.savefig,
    mbind, M_bind, mret, M_ret, modify, raise. simpl.
  rewrite Hpie, Hseries. simpl.
  rewrite !dom_insert_L.
  fold (pie_path st).
  replace ({[pie_path st]} ∪ ({[pie_path st]} ∪ dom (files st)))
    with ({[pie_path st]} ∪ dom (files st)) by set_solver.
  fold (time_path st).
  destruct (time_path_fresh st) as [Ht1 Ht2]. pose proof (pie_path_fresh st) as Hp.
  eexists. split; [reflexivity|]. simpl.
  rewrite !dom_insert_L. set_solver.
Qed.
End ExportFacts.

Section ExportExamples.
Local Existing Instance small_integers.

(** C5. An export in which the time chart cannot be derived (a typed row
    whose date is no date) raises after both temporary files were made and
    before the cleanup is reached: the two files are left on disk. *)
Theorem export_leaks_temp_files :
  ∃ st',
    PdfExporter.export sample_datetime (λ _, None)
      [mkRow "rent" "soon" "Expense" 30] "report.pdf"
      (mkApp one_cell (mkStack [] 0) false None None None "Ready" [] ∅)
    = Raised ValueError st'
    ∧ files st' = {[ "0" := PieImage [("rent", 30)]; "1" := Blank ]}
    ∧ shown st' = [].
Proof. eexists. split; [by vm_compute|]. split; [by vm_compute|done]. Qed.

(** The same rows with a date that parses: both images are removed, with
    the document built and with [doc.build] raising. *)
Example export_removes_temp_files_sample :
  (∃ st',
     PdfExporter.export sample_datetime (λ _, None)
       [mkRow "rent" "Jan-1" "Expense" 30] "report.pdf"
       (mkApp one_cell (mkStack [] 0) false None None None "Ready" [] ∅)
     = Returned () st'
     ∧ dom (files st') = {["report.pdf"]})
  ∧ (∃ st',
       PdfExporter.export sample_datetime (λ _, Some IOError)
         [mkRow "rent" "Jan-1" "Expense" 30] "report.pdf"
         (mkApp one_cell (mkStack [] 0) false None None None "Ready" [] ∅)
       = Returned () st'
       ∧ files st' = ∅).
Proof.
  split; eexists; (split; [by vm_compute|]); by vm_compute.
Qed.

(** The cleanup on a concrete export, by the lemma above. *)
Lemma export_removes_temp_files_report :
  ∃ st',
    PdfExporter.export sample_datetime (λ _, None)
      [mkRow "rent" "Jan-1" "Expense" 30] "report.pdf" one_edit
    = Returned () st'
    ∧ (pie_path one_edit ∉ dom (files st'))
    ∧ (time_path one_edit ∉ dom (files st'))
    ∧ dom (files st') ⊆ dom (files one_edit) ∪ {["report.pdf"]}.
Proof.
  apply (export_removes_temp_files (H := small_integers) sample_datetime (λ _, None)
           [@mkRow small_integers "rent" "Jan-1" "Expense" 30] "report.pdf" one_edit
           [(Some 1, -30)]).
  - done.
  - done.
  - reflexivity.
  - reflexivity.
Defined.
End ExportExamples.

(** ** Typed row extraction *)

Lemma elem_of_get_indexer cols name (c : nat) :
  c ∈ get_indexer cols name ↔ cols !! c = Some name.
Proof.
  unfold get_indexer. rewrite list_elem_of_fmap. split.
  - intros ([i s] & -> & Hin). apply list_elem_of_filter in Hin as [Hs Hin].
    apply elem_of_lookup_imap in Hin as (j & y & [= -> ->] & Hj). simpl in *.
    by subst.
  - intros Hc. exists (c, name). split; [done|].
    apply list_elem_of_filter. split; [done|].
    by apply (elem_of_lookup_imap_2 pair).
Qed.

Lemma get_indexer_nonempty cols name :
  name ∈ cols → ∃ c cs, get_indexer cols name = c :: cs.
Proof.
  intros (c & Hc)%list_elem_of_lookup. apply elem_of_get_indexer in Hc.
  destruct (get_indexer cols name) as [|c' cs]; [by apply elem_of_nil in Hc|eauto].
Qed.

Lemma filter_fmap_seq {B} (P : B → Prop) `{!∀ x, Decision (P x)} (f : nat → B) (l : list nat) :
  filter P (f <$> l) = f <$> filter (λ r, P (f r)) l.
Proof.
  induction l as [|x l IH]; [done|].
  rewrite fmap_cons, !filter_cons, IH. by case_decide.
Qed.

Section TypedExtraction.
Context `{Libraries}.
Variable to_numeric : string → option num.
Variable table : QTableWidget.

Local Abbreviation texts r := ((λ c, item_text table r c) <$> seq 0 (columnCount table)).

Lemma assigned_row_lookup a r (c : nat) :
  alter (to_numeric_coerce to_numeric) a (Text <$> texts r) !! c
  = typed_row to_numeric table a r !! c.
Proof.
  unfold typed_row. rewrite list_lookup_alter, !list_lookup_fmap.
  destruct (decide (a = c)) as [->|Hne].
  - destruct (seq 0 (columnCount table) !! c) as [c'|] eqn:Hc; simpl; [|done].
    apply lookup_seq in Hc as [-> _]. simpl.
    rewrite bool_decide_true by done. by destruct (to_numeric _).
  - destruct (seq 0 (columnCount table) !! c) as [c'|] eqn:Hc; simpl; [|done].
    apply lookup_seq in Hc as [-> _]. simpl.
    by rewrite bool_decide_false by done.
Qed.

Lemma assigned_row a r :
  alter (to_numeric_coerce to_numeric) a (Text <$> texts r)
  = typed_row to_numeric table a r.
Proof. apply list_eq. intros c. apply assigned_row_lookup. Qed.

(** A typed row has a missing value nowhere but, possibly, at [a]. *)
Lemma typed_row_NaN a r (c : nat) :
  typed_row to_numeric table a r !! c = Some NaN
  ↔ c = a ∧ (a < columnCount table)%nat ∧ to_numeric (item_text table r a) = None.
Proof.
  unfold typed_row. rewrite list_lookup_fmap.
  destruct (seq 0 (columnCount table) !! c) as [c'|] eqn:Hc; simpl.
  - apply lookup_seq in Hc as [-> Hlt]. simpl.
    case_bool_decide as Hca.
    + subst c. destruct (to_numeric _); naive_solver.
    + naive_solver.
  - split; [done|]. intros (-> & Hlt & _). by rewrite lookup_seq_lt in Hc.
Qed.

(** What the typed row extraction does on a grid with at least one row, a
    header item on every column, one Amount column, and a Date and a Type
    column: it returns the rows whose Amount text parses, in their order
    and with all other cells as the texts of the grid, and None when no
    row is left. *)
Lemma typed_extraction_drops_unparsed_amounts (headers : list string) (a : nat) :
  rowCount table ≠ 0%nat →
  mapM (M := option) (λ i, horizontalHeaderItem table !! i) (seq 0 (columnCount table))
    = Some headers →
  get_indexer headers "Amount" = [a] →
  "Date" ∈ headers →
  "Type" ∈ headers →
  _table_to_dataframe to_numeric table
  = Ok (match filter (λ r, is_Some (to_numeric (item_text table r a)))
                     (seq 0 (rowCount table)) with
        | [] => None
        | kept => Some (mkFrame headers (typed_row to_numeric table a <$> kept))
        end).
Proof.
  intros Hrows Hheaders Ha HDate HType.
  unfold _table_to_dataframe.
  rewrite bool_decide_false by done. rewrite Hheaders, Ha.
  destruct (get_indexer_nonempty _ _ HDate) as (d & ds & Hd).
  destruct (get_indexer_nonempty _ _ HType) as (y & ys & Hy).
  rewrite Hd, Hy.
  assert (Hlen : length headers = columnCount table).
  { apply length_mapM in Hheaders. by rewrite length_seq in Hheaders. }
  assert (Hacol : (a < columnCount table)%nat).
  { rewrite <- Hlen. apply (lookup_lt_Some _ _ "Amount"), elem_of_get_indexer.
    rewrite Ha. by apply list_elem_of_singleton. }
  assert (Hother : ∀ c, c ∈ (d :: ds) ++ (y :: ys) → c ≠ a).
  { intros c Hc ->. apply elem_of_app in Hc as [Hc|Hc].
    - rewrite <- Hd in Hc. apply elem_of_get_indexer in Hc.
      assert (Ha' : a ∈ get_indexer headers "Amount") by (rewrite Ha; by apply list_elem_of_singleton).
      apply elem_of_get_indexer in Ha'. congruence.
    - rewrite <- Hy in Hc. apply elem_of_get_indexer in Hc.
      assert (Ha' : a ∈ get_indexer headers "Amount") by (rewrite Ha; by apply list_elem_of_singleton).
      apply elem_of_get_indexer in Ha'. congruence. }
  set (subset := a :: (d :: ds) ++ y :: ys).
  assert (Hrowsd :
    dropna subset (assign_numeric to_numeric a
                     ((λ r : list string, Text <$> r) <$> table_texts table))
    = typed_row to_numeric table a
        <$> filter (λ r, is_Some (to_numeric (item_text table r a)))
                   (seq 0 (rowCount table))).
  { unfold assign_numeric, table_texts, dropna.
    rewrite <- !list_fmap_compose.
    rewrite (list_fmap_ext _ (typed_row to_numeric table a) (seq 0 (rowCount table)));
      [|intros i r _; simpl; apply assigned_row].
    rewrite filter_fmap_seq. f_equal.
    apply filter_ext_Forall, Forall_forall. intros r _.
    rewrite Forall_forall. split.
    - intros Hall. specialize (Hall a). rewrite typed_row_NaN in Hall.
      destruct (to_numeric (item_text table r a)); [by eexists|].
      destruct Hall; [by apply elem_of_cons; left|done].
    - intros [z Hz] c Hc. rewrite typed_row_NaN. intros (-> & _ & Hn). congruence. }
  fold subset. rewrite Hrowsd.
  destruct (filter _ (seq 0 (rowCount table))) as [|r kept] eqn:Hkept; [done|].
  by rewrite bool_decide_false.
Qed.
End TypedExtraction.

Section TypedExtractionExamples.
Local Existing Instance small_integers.

(** Of two rows the one whose amount is no number is dropped, the other
    is returned with its amount as a number. *)
Example typed_extraction_drops_unparsed_amounts_sample :
  _table_to_dataframe sample_numeric grid_bad_amount
  = Ok (Some (mkFrame ["Description"; "Date"; "Type"; "Amount"]
                [[Text "rent"; Text "Jan-1"; Text "Expense"; Number 30]])).
Proof.
  rewrite (typed_extraction_drops_unparsed_amounts (H := small_integers)
             sample_numeric grid_bad_amount
             ["Description"; "Date"; "Type"; "Amount"] 3).
  - reflexivity.
  - simpl. lia.
  - reflexivity.
  - reflexivity.
  - apply (bool_decide_unpack _). by vm_compute.
  - apply (bool_decide_unpack _). by vm_compute.
Qed.

(** C7. The typed row extraction asks pandas to drop the rows with a
    missing Amount, Date or Type, but the Date and Type cells it built are
    texts, the empty text for a cell without an item, and a text is never
    missing: a row whose Date and Type cells are missing is returned, with
    empty texts in their place, and so is a row whose Date is a text that
    is no date. Only a row whose Amount does not parse is dropped. *)
Theorem typed_extraction_keeps_row_without_date :
  item grid_missing_date !! (0%nat, 1%nat) = None
  ∧ item grid_missing_date !! (0%nat, 2%nat) = None
  ∧ _table_to_dataframe sample_numeric grid_missing_date
    = Ok (Some (mkFrame ["Description"; "Date"; "Type"; "Amount"]
                  [[Text "rent"; Text ""; Text ""; Number 30]]))
  ∧ sample_datetime "soon" = Unparseable
  ∧ _table_to_dataframe sample_numeric grid_bad_date
    = Ok (Some (mkFrame ["Description"; "Date"; "Type"; "Amount"]
                  [[Text "rent"; Text "soon"; Text "Expense"; Number 30]])).
Proof. by repeat split. Qed.
End TypedExtractionExamples.

(** ** What the actions keep *)

(** X4. For every behaviour of the toolkit's setItem, a user edit, undo(),
    redo() and an import that start with the index of the undo stack
    within its list end, returning or raising, with the index within the
    list, and the nesting of signal deliveries never exceeds depth two. *)
Theorem history_index_stays_in_bounds `{Libraries}
    (setItem_raises : QTableWidget → nat → nat → string → option exn) (fuel : nat) :
  (∀ r c text,
     maintains stack_in_bounds
       (MainWindow.edit_cell setItem_raises (S (S fuel)) r c text))
  ∧ maintains stack_in_bounds (MainWindow.undo setItem_raises (S fuel))
  ∧ maintains stack_in_bounds (MainWindow.redo setItem_raises (S fuel))
  ∧ ∀ filename,
      maintains stack_in_bounds
        (Actions.import_csv setItem_raises (S (S fuel)) filename).
Proof.
  split; [|split; [|split]].
  - intros r c text. apply edit_cell_maintains_bounds.
  - apply undo_maintains_bounds.
  - apply redo_maintains_bounds.
  - intros filename. unfold Actions.import_csv.
    apply maintains_bind; [|intros _; by apply maintains_modify].
    apply read_maintains; try done.
    intros r c text. apply ui_setItem_maintains_bounds.
Qed.

(** An import of a frame of one row into the state with one edit: the
    four imported cells are recorded behind it and the index follows. *)
Section KeptExamples.
Local Existing Instance small_integers.

Lemma history_index_stays_in_bounds_import :
  match Actions.import_csv qt_setItem_raises 2 "good.csv"
          (set_files (<["good.csv" := CsvFile (mkFrame ["Description"; "Date"; "Type"; "Amount"]
                                                 [[Text "rent"; Text "Jan-1"; Text "Expense"; Number 30]])]>)
             one_edit) with
  | Returned _ st' | Raised _ st' => stack_in_bounds st'
  | OutOfFuel => False
  end.
Proof.
  apply (history_index_stays_in_bounds (H := small_integers) qt_setItem_raises 0).
  unfold stack_in_bounds. simpl. lia.
Defined.
End KeptExamples.

(** X5. Saving, exporting and showing the charts never change the grid,
    the Edit History, the reentrancy flag or the remembered click, however
    they end: with a file written, a dialog cancelled, no valid data, or
    an exception. *)
Theorem saving_and_exporting_keep_grid_and_history `{Libraries}
    (to_numeric : string → option num) (parse_datetime : string → parsed_date)
    (build_raises : string → option exn) (answer : string) (st : App) :
  let kept (o : outcome unit) :=
    match o with
    | Returned _ st' | Raised _ st' => editing_state st' = editing_state st
    | OutOfFuel => False
    end in
  kept (Actions.save answer st)
  ∧ kept (Window.save_file answer st)
  ∧ kept (Actions.save_to_pdf to_numeric parse_datetime build_raises answer st)
  ∧ match Window.charts to_numeric parse_datetime st with
    | Returned _ st' | Raised _ st' => editing_state st' = editing_state st
    | OutOfFuel => False
    end.
Proof.
  set (I := λ st', editing_state st' = editing_state st).
  assert (Hs : ∀ s st', I st' → I (set_statusBar s st')) by (by intros s [] ?).
  assert (Hf : ∀ f st', I st' → I (set_files f st')) by (by intros f [] ?).
  assert (Hn : ∀ n st', I st' → I (set_current_filename n st')) by (by intros n [] ?).
  assert (Hm : ∀ m st', I st' → I (add_shown m st')) by (by intros m [] ?).
  simpl. split; [|split; [|split]].
  - apply (maintains_bind I); [by apply quick_save_maintains| |done].
    intros _. by apply maintains_modify.
  - apply (maintains_bind I); [by apply save_as_maintains| |done].
    intros _. by apply maintains_modify.
  - by apply (save_to_pdf_maintains I).
  - by apply (charts_maintains I).
Qed.

(** X6. Clicking a cell, editing it, undo() and redo() never write a file,
    never change the remembered file name and never show a message,
    whatever the toolkit does. *)
Theorem editing_keeps_disk `{Libraries}
    (setItem_raises : QTableWidget → nat → nat → string → option exn)
    (fuel r c : nat) (text : string) (st : App) :
  let kept (o : outcome unit) :=
    match o with
    | Returned _ st' | Raised _ st' => disk_state st' = disk_state st
    | OutOfFuel => False
    end in
  kept (MainWindow._on_cell_clicked r c st)
  ∧ kept (MainWindow.edit_cell setItem_raises (S (S fuel)) r c text st)
  ∧ kept (MainWindow.undo setItem_raises (S fuel) st)
  ∧ kept (MainWindow.redo setItem_raises (S fuel) st).
Proof.
  simpl. split; [done|]. split; [|split].
  - unfold MainWindow.edit_cell. destruct (in_range _ _ _); [|done].
    destruct (_ignore_change st) eqn:Hflag.
    + by rewrite _on_item_changed_ignored.
    + rewrite _on_item_changed_run by done. by destruct (setItem_raises _ _ _ _).
  - rewrite undo_run. destruct (index (undo_stack st)) as [|idx]; [done|].
    destruct (command_list (undo_stack st) !! idx); [|done].
    by destruct (setItem_raises _ _ _ _).
  - rewrite redo_run.
    destruct (command_list (undo_stack st) !! index (undo_stack st)); [|done].
    by destruct (setItem_raises _ _ _ _).
Qed.

(** ** The redo tail and the empty history *)

(** X7. A user edit of a cell of the grid, in a state with the flag clear
    and the index within the list, drops the commands past the index and
    appends its own, so that nothing is left to redo: redo() then changes
    neither grid nor history. *)
Theorem edit_discards_redo_tail `{Libraries} (fuel r c : nat) (text : string) (st : App) :
  in_range (tableWidget st) r c = true →
  _ignore_change st = false →
  stack_in_bounds st →
  ∃ st1 st2 old,
    MainWindow.edit_cell qt_setItem_raises (S (S fuel)) r c text st = Returned () st1
    ∧ command_list (undo_stack st1)
      = take (index (undo_stack st)) (command_list (undo_stack st)) ++ [mkEdit r c old text]
    ∧ index (undo_stack st1) = length (command_list (undo_stack st1))
    ∧ MainWindow.redo qt_setItem_raises (S fuel) st1 = Returned () st2
    ∧ tableWidget st2 = tableWidget st1
    ∧ undo_stack st2 = undo_stack st1.
Proof.
  intros Hr Hflag Hidx.
  destruct st as [t [cl idx] f lc lv cf sb sh fs]. unfold stack_in_bounds in Hidx.
  simpl in *. eexists _, _, _.
  split; [by apply edit_cell_run|].
  simpl. split; [reflexivity|].
  assert (Hlen : length (take idx cl ++
                   [mkEdit r c (if bool_decide (lc = Some (r, c)) then default "" lv else "") text])
                 = S idx).
  { rewrite length_app, length_take. simpl. lia. }
  split; [by rewrite Hlen|].
  rewrite redo_run. simpl. rewrite lookup_ge_None_2 by (rewrite Hlen; lia).
  done.
Qed.

(** The redo tail of the state with one edit, undone: a new edit replaces
    the undone command. *)
Section RedoTailExamples.
Local Existing Instance small_integers.

Lemma edit_discards_redo_tail_one_edit :
  ∃ st1 st2 old,
    MainWindow.edit_cell qt_setItem_raises 2 0 0 "z"
      (set_undo_stack (λ s, mkStack (command_list s) 0) one_edit) = Returned () st1
    ∧ command_list (undo_stack st1) = [] ++ [mkEdit 0 0 old "z"]
    ∧ index (undo_stack st1) = length (command_list (undo_stack st1))
    ∧ MainWindow.redo qt_setItem_raises 1 st1 = Returned () st2
    ∧ tableWidget st2 = tableWidget st1
    ∧ undo_stack st2 = undo_stack st1.
Proof.
  apply (edit_discards_redo_tail (H := small_integers) 0 0 0 "z"
           (set_undo_stack (λ s, mkStack (command_list s) 0) one_edit)).
  - reflexivity.
  - reflexivity.
  - unfold stack_in_bounds. simpl. lia.
Defined.
End RedoTailExamples.

(** X8. undo() with nothing to undo and redo() with nothing to redo never
    call the toolkit: whatever it would do, and at every depth allowed to
    signal deliveries, they return with the grid, the history and the disk
    as they were, the flag cleared and their name in the status bar. *)
Theorem undo_redo_without_history `{Libraries}
    (setItem_raises : QTableWidget → nat → nat → string → option exn)
    (fuel : nat) (st : App) :
  (index (undo_stack st) = 0%nat →
   MainWindow.undo setItem_raises fuel st
   = Returned () (set_statusBar "Undo" (set_ignore_change false st)))
  ∧ (index (undo_stack st) = length (command_list (undo_stack st)) →
     MainWindow.redo setItem_raises fuel st
     = Returned () (set_statusBar "Redo" (set_ignore_change false st))).
Proof.
  split.
  - intros Hidx. unfold MainWindow.undo, QUndoStack_undo, mbind, M_bind, modify,
      get_state, MainWindow._show_status. simpl. rewrite Hidx. by destruct st.
  - intros Hidx. unfold MainWindow.redo, QUndoStack_redo, mbind, M_bind, modify,
      get_state, MainWindow._show_status. simpl.
    rewrite lookup_ge_None_2 by lia. by destruct st.
Qed.

(** The window as it starts: nothing to undo, nothing to redo. *)
Section EmptyHistoryExamples.
Local Existing Instance small_integers.

Lemma undo_redo_without_history_at_start :
  MainWindow.undo qt_setItem_raises 0 (Window.__init__ one_cell ∅)
  = Returned () (set_statusBar "Undo" (Window.__init__ one_cell ∅))
  ∧ MainWindow.redo qt_setItem_raises 0 (Window.__init__ one_cell ∅)
    = Returned () (set_statusBar "Redo" (Window.__init__ one_cell ∅)).
Proof.
  destruct (undo_redo_without_history (H := small_integers) qt_setItem_raises 0
              (Window.__init__ one_cell ∅))
    as [Hundo Hredo].
  split; [apply Hundo|apply Hredo]; reflexivity.
Defined.
End EmptyHistoryExamples.

(** ** A successful import *)

Lemma elem_of_cells n m r c :
  (r, c) ∈ CsvReader.cells n m ↔ (r < n)%nat ∧ (c < m)%nat.
Proof.
  unfold CsvReader.cells. rewrite list_elem_of_bind. split.
  - intros (r' & Hin & Hr'). apply list_elem_of_bind in Hin as (c' & Hin & Hc').
    apply list_elem_of_singleton in Hin as [= -> ->].
    apply elem_of_seq in Hr', Hc'. lia.
  - intros [Hr Hc]. exists r. split; [|apply elem_of_seq; lia].
    apply list_elem_of_bind. exists c. split; [by apply list_elem_of_singleton|].
    apply elem_of_seq. lia.
Qed.

Lemma length_cells n m : length (CsvReader.cells n m) = (n * m)%nat.
Proof.
  unfold CsvReader.cells.
  assert (Hrow : ∀ (r j : nat), length (seq j m ≫= λ c, [(r, c)]) = m).
  { intros r. induction m as [|m' IHm]; intros j; [done|].
    simpl. by rewrite IHm. }
  assert (Hall : ∀ k, length (seq k n ≫= λ r, seq 0 m ≫= λ c, [(r, c)]) = (n * m)%nat).
  { induction n as [|n' IHn]; intros k; [done|].
    simpl. by rewrite length_app, Hrow, IHn. }
  apply Hall.
Qed.

Lemma list_to_map_imap_pair {A} (l : list A) (i : nat) :
  (list_to_map (imap pair l) : gmap nat A) !! i = l !! i.
Proof.
  assert (Hgen : ∀ k, (list_to_map (imap (λ j x, (k + j, x)%nat) l) : gmap nat A) !! (k + i)%nat
                      = l !! i).
  { revert i. induction l as [|x l IH]; intros i k; [done|].
    simpl. destruct i as [|i].
    - rewrite Nat.add_0_r. by rewrite lookup_insert_eq.
    - rewrite lookup_insert_ne by lia. simpl.
      rewrite <- (IH i (S k)). replace (k + S i)%nat with (S k + i)%nat by lia.
      f_equal. f_equal. apply imap_ext. intros j y _. simpl. f_equal. lia. }
  apply (Hgen 0%nat).
Qed.

Section ImportCell.
Context `{Libraries}.
Variable text : nat → nat → string.

Lemma in_range_import_cell st rc r c :
  in_range (tableWidget (import_cell text st rc)) r c = in_range (tableWidget st) r c.
Proof.
  unfold import_cell. simpl. by rewrite !in_range_store_item.
Qed.

Lemma ui_setItem_import_cell fuel st rc :
  in_range (tableWidget st) rc.1 rc.2 = true →
  _ignore_change st = false →
  Actions.ui_setItem qt_setItem_raises (S (S fuel)) rc.1 rc.2 (text rc.1 rc.2) st
  = Returned () (import_cell text st rc).
Proof.
  intros Hr Hflag. rewrite ui_setItem_unfold. unfold qt_setItem_raises at 1.
  rewrite Hr. by rewrite _on_item_changed_run.
Qed.

Lemma for_each_import_cells fuel (l : list (nat * nat)) st :
  Forall (λ rc, in_range (tableWidget st) rc.1 rc.2 = true) l →
  _ignore_change st = false →
  for_each l (λ rc, Actions.ui_setItem qt_setItem_raises (S (S fuel)) rc.1 rc.2
                      (text rc.1 rc.2)) st
  = Returned () (foldl (import_cell text) st l).
Proof.
  revert st. induction l as [|rc l IH]; intros st Hl Hflag; [done|].
  apply Forall_cons in Hl as [Hrc Hl]. simpl. unfold mbind, M_bind.
  rewrite ui_setItem_import_cell by done. apply IH; [|done].
  eapply Forall_impl; [exact Hl|]. intros q Hq. by rewrite in_range_import_cell.
Qed.

(** What the cells of a list, all within the grid, leave behind. *)
Lemma import_cells_state (l : list (nat * nat)) st :
  Forall (λ rc, in_range (tableWidget st) rc.1 rc.2 = true) l →
  let st' := foldl (import_cell text) st l in
  rowCount (tableWidget st') = rowCount (tableWidget st)
  ∧ columnCount (tableWidget st') = columnCount (tableWidget st)
  ∧ horizontalHeaderItem (tableWidget st') = horizontalHeaderItem (tableWidget st)
  ∧ disk_state st' = disk_state st
  ∧ (l ≠ [] → _ignore_change st' = false)
  ∧ index (undo_stack st') = (index (undo_stack st) + length l)%nat
  ∧ (stack_in_bounds st →
     length (command_list (undo_stack st')) = (index (undo_stack st) + length l)%nat
     ∨ l = [])
  ∧ ∀ r c, item_text (tableWidget st') r c
           = if bool_decide ((r, c) ∈ l) then text r c else item_text (tableWidget st) r c.
Proof.
  induction l as [|rc l IH] using rev_ind; intros Hl st'.
  { subst st'. simpl.
    repeat split;
      first [ done | lia | by right
            | intros r c; by rewrite bool_decide_false by apply not_elem_of_nil ]. }
  apply Forall_app in Hl as [Hl Hrc]. rewrite Forall_singleton in Hrc.
  specialize (IH Hl). simpl in IH.
  destruct IH as (Hrows & Hcols & Hhead & Hdisk & Hflag & Hidx & Hlen & Htext).
  subst st'. rewrite foldl_snoc. set (s := foldl (import_cell text) st l) in *.
  assert (Hrs : in_range (tableWidget s) rc.1 rc.2 = true).
  { unfold in_range in *. by rewrite Hrows, Hcols. }
  rewrite length_app. simpl.
  assert (Hshape : ∀ t r c v, rowCount (store_item r c v t) = rowCount t
                    ∧ columnCount (store_item r c v t) = columnCount t
                    ∧ horizontalHeaderItem (store_item r c v t) = horizontalHeaderItem t).
  { intros t r c v. unfold store_item. by destruct (in_range t r c). }
  split; [unfold import_cell; simpl;
          rewrite (proj1 (Hshape _ _ _ _)), (proj1 (Hshape _ _ _ _)); done|].
  split; [unfold import_cell; simpl;
          rewrite (proj1 (proj2 (Hshape _ _ _ _))), (proj1 (proj2 (Hshape _ _ _ _))); done|].
  split; [unfold import_cell; simpl;
          rewrite (proj2 (proj2 (Hshape _ _ _ _))), (proj2 (proj2 (Hshape _ _ _ _))); done|].
  split; [by rewrite <- Hdisk|].
  split; [done|].
  split; [unfold import_cell; simpl; lia|].
  split.
  { intros Hb. left. unfold import_cell. simpl.
    rewrite length_app, length_take. simpl.
    destruct (Hlen Hb) as [Hlen'| ->]; [lia|].
    subst s. simpl. unfold stack_in_bounds in Hb. lia. }
  intros r c. unfold import_cell. simpl. rewrite store_item_twice.
  destruct (decide ((r, c) = rc)) as [<-|Hne].
  - simpl in *. rewrite !item_text_store_item by done.
    rewrite bool_decide_true; [done|]. apply elem_of_app. right.
    by apply list_elem_of_singleton.
  - destruct rc as [r' c']. simpl in *.
    rewrite item_text_store_item_ne by congruence. rewrite Htext.
    destruct (decide ((r, c) ∈ l)) as [Hin|Hnin].
    + rewrite !bool_decide_true; [done| |done]. apply elem_of_app. by left.
    + rewrite !bool_decide_false; [done| |done].
      intros [?|Heq%list_elem_of_singleton]%elem_of_app; [done|]. congruence.
Qed.
End ImportCell.

Lemma setHorizontalHeaderLabels_lookup (labels : list string) table (c : nat) :
  columnCount table = length labels →
  (c < length labels)%nat →
  horizontalHeaderItem (setHorizontalHeaderLabels labels table) !! c = labels !! c.
Proof.
  intros Hm Hc. unfold setHorizontalHeaderLabels. simpl.
  rewrite Hm, firstn_all.
  destruct (lookup_lt_is_Some_2 labels c Hc) as [label Hlabel].
  rewrite Hlabel. apply lookup_union_Some_l. by rewrite list_to_map_imap_pair.
Qed.

(** The reader on a CSV file with the required columns, the flag clear and
    Qt's own [setItem]: the state it returns. *)
Lemma read_imports `{Libraries} fuel filename st df :
  filename ≠ "" →
  files st !! filename = Some (CsvFile df) →
  CsvReader._check_csv_columns df = true →
  _ignore_change st = false →
  CsvReader.read (Actions.ui_setItem qt_setItem_raises (S (S fuel))) filename st
  = Returned ()
      (foldl (import_cell (CsvReader.iat_str df))
         (set_tableWidget (setHorizontalHeaderLabels (columns df))
            (set_tableWidget (setColumnCount (length (columns df)))
               (set_tableWidget (setRowCount (length (values df)))
                  (set_current_filename filename st))))
         (CsvReader.cells (length (values df)) (length (columns df)))).
Proof.
  intros Hname Hfile Hcols Hflag. unfold CsvReader.read.
  rewrite (proj2 (String.eqb_neq _ _)) by done.
  unfold mbind at 1 2. unfold M_bind at 1 2.
  unfold modify at 1, try_except, fmap, M_fmap, CsvReader.read_csv. simpl.
  rewrite Hfile, Hcols. simpl.
  unfold mbind at 1 2 3. unfold M_bind at 1 2 3. unfold modify. 
  apply (for_each_import_cells (CsvReader.iat_str df) fuel); [|by destruct st].
  apply Forall_forall. intros [r c] [Hr Hc]%elem_of_cells. simpl.
  unfold in_range. simpl. by rewrite !bool_decide_true.
Qed.

(** X9. A successful import (a CSV file with the four required columns,
    read by Qt's own setItem in a state with the flag clear) makes the grid
    the frame of the file, text by text and label by label, so that the
    data a save would write is that frame; it remembers the path, writes
    no file, and records every imported cell as an edit: the index of the
    undo stack moves on by the number of cells. *)
Theorem import_fills_grid_and_records_cells `{Libraries} (fuel : nat) (filename : string)
    (st : App) (df : DataFrame) :
  filename ≠ "" →
  files st !! filename = Some (CsvFile df) →
  (∀ c, c ∈ ["Description"; "Date"; "Type"; "Amount"] → c ∈ columns df) →
  _ignore_change st = false →
  ∃ st',
    Actions.import_csv qt_setItem_raises (S (S fuel)) filename st = Returned () st'
    ∧ rowCount (tableWidget st') = length (values df)
    ∧ columnCount (tableWidget st') = length (columns df)
    ∧ table_texts (tableWidget st') = imported_texts df
    ∧ CsvReader.get_table_data (tableWidget st')
      = mkFrame (columns df) ((λ r : list string, Text <$> r) <$> imported_texts df)
    ∧ current_filename st' = Some filename
    ∧ files st' = files st
    ∧ shown st' = shown st
    ∧ index (undo_stack st')
      = (index (undo_stack st) + length (values df) * length (columns df))%nat.
Proof.
  intros Hname Hfile Hreq Hflag.
  assert (Hcols : CsvReader._check_csv_columns df = true)
    by (by apply _check_csv_columns_spec).
  set (n := length (values df)). set (m := length (columns df)).
  set (s0 := set_tableWidget (setHorizontalHeaderLabels (columns df))
               (set_tableWidget (setColumnCount m)
                  (set_tableWidget (setRowCount n)
                     (set_current_filename filename st)))).
  assert (Hl : Forall (λ rc, in_range (tableWidget s0) rc.1 rc.2 = true)
                 (CsvReader.cells n m)).
  { apply Forall_forall. intros [r c] [Hr Hc]%elem_of_cells. simpl.
    unfold in_range. simpl. by rewrite !bool_decide_true. }
  destruct (import_cells_state (CsvReader.iat_str df) _ _ Hl)
    as (Hrows & Hcolumns & Hhead & Hdisk & _ & Hidx & _ & Htext).
  set (s1 := foldl (import_cell (CsvReader.iat_str df)) s0 (CsvReader.cells n m)) in *.
  exists (set_statusBar "CSV Imported" s1). split.
  { unfold Actions.import_csv, mbind, M_bind.
    by rewrite (read_imports fuel filename st df). }
  assert (Htexts : table_texts (tableWidget s1) = imported_texts df).
  { unfold table_texts, imported_texts. rewrite Hrows, Hcolumns. simpl.
    fold n m. apply list_fmap_ext. intros i r Hr. apply lookup_seq in Hr as [-> Hr].
    apply list_fmap_ext. intros j c Hc. apply lookup_seq in Hc as [-> Hc].
    simpl. rewrite Htext. rewrite bool_decide_true; [done|]. by apply elem_of_cells. }
  simpl. split; [by rewrite Hrows|]. split; [by rewrite Hcolumns|].
  split; [done|]. split.
  { assert (Hlabel : ∀ c, (c < m)%nat →
              horizontalHeaderItem (tableWidget s0) !! c = columns df !! c).
    { intros c Hc.
      exact (setHorizontalHeaderLabels_lookup (columns df)
               (tableWidget (set_tableWidget (setColumnCount m)
                  (set_tableWidget (setRowCount n)
                     (set_current_filename filename st)))) c eq_refl Hc). }
    unfold CsvReader.get_table_data. rewrite Htexts. f_equal.
    rewrite Hcolumns, Hhead.
    replace (columnCount (tableWidget s0)) with m by done.
    apply list_eq. intros c. rewrite list_lookup_fmap.
    destruct (decide (c < m)%nat) as [Hc|Hc].
    - rewrite lookup_seq_lt by done. change (0 + c)%nat with c.
      cbn [fmap option_fmap option_map]. rewrite Hlabel by done.
      destruct (lookup_lt_is_Some_2 (columns df) c Hc) as [label ->]. done.
    - rewrite lookup_seq_ge by lia. symmetry. apply lookup_ge_None_2. fold m. lia. }
  assert (Hd : disk_state s1 = disk_state s0) by done.
  unfold disk_state in Hd. simpl in Hd. injection Hd as Hfiles Hcf Hshown.
  split; [done|]. split; [done|]. split; [done|].
  rewrite Hidx, length_cells. done.
Qed.

(** An import of two rows of four columns into the window as it starts:
    eight cells, eight recorded edits. *)
Section ImportedExamples.
Local Existing Instance small_integers.

Lemma import_fills_grid_and_records_cells_two_rows :
  ∃ st',
    Actions.import_csv qt_setItem_raises 2 "good.csv"
      (Window.__init__ one_cell
         {[ "good.csv" := CsvFile (mkFrame ["Description"; "Date"; "Type"; "Amount"]
                                     [[Text "rent"; Text "Jan-1"; Text "Expense"; Number 30];
                                      [Text "gift"; Text "soon"; Text "Income"; NaN]]) ]})
    = Returned () st'
    ∧ table_texts (tableWidget st')
      = [["rent"; "Jan-1"; "Expense"; "30"]; ["gift"; "soon"; "Income"; "nan"]]
    ∧ index (undo_stack st') = 8%nat.
Proof.
  destruct (import_fills_grid_and_records_cells (H := small_integers) 0 "good.csv"
              (Window.__init__ one_cell
                 {[ "good.csv" := CsvFile (mkFrame ["Description"; "Date"; "Type"; "Amount"]
                                             [[Text "rent"; Text "Jan-1"; Text "Expense"; @Number small_integers 30];
                                              [Text "gift"; Text "soon"; Text "Income"; NaN]]) ]})
              (mkFrame ["Description"; "Date"; "Type"; "Amount"]
                 [[Text "rent"; Text "Jan-1"; Text "Expense"; @Number small_integers 30];
                  [Text "gift"; Text "soon"; Text "Income"; NaN]]))
    as (st' & Hrun & _ & _ & Htexts & _ & _ & _ & _ & Hidx).
  - done.
  - reflexivity.
  - intros c Hc. apply (bool_decide_unpack _).
    revert c Hc. apply Forall_forall. repeat constructor.
  - reflexivity.
  - exists st'. split; [exact Hrun|]. split; [by rewrite Htexts|exact Hidx].
Defined.
End ImportedExamples.
(** ** Export: what is left on disk and what is shown *)

Section ExportOutcome.
Context `{Libraries}.
Variable parse_datetime : string → parsed_date.
Variable build_raises : string → option exn.

(** The disk after the two images were made, the document was written and
    the images were removed, and after the same without the document. *)
Lemma files_after_export (files : gmap string File) (pie time file_path : string)
    (pie_image line_image document : File) :
  files !! pie = None → files !! time = None →
  file_path ≠ pie → file_path ≠ time →
  delete time (delete pie
    (<[file_path := document]>
       (<[time := line_image]> (<[time := Blank]>
          (<[pie := pie_image]> (<[pie := Blank]> files))))))
  = <[file_path := document]> files.
Proof.
  intros Hpie Htime Hp Ht. apply map_eq. intros k.
  destruct (decide (k = time)) as [->|?]; [by simplify_map_eq|].
  destruct (decide (k = pie)) as [->|?]; [by simplify_map_eq|].
  destruct (decide (k = file_path)) as [->|?]; by simplify_map_eq.
Qed.

Lemma files_after_failed_export (files : gmap string File) (pie time : string)
    (pie_image line_image : File) :
  files !! pie = None → files !! time = None →
  delete time (delete pie
    (<[time := line_image]> (<[time := Blank]>
       (<[pie := pie_image]> (<[pie := Blank]> files)))))
  = files.
Proof.
  intros Hpie Htime. apply map_eq. intros k.
  destruct (decide (k = time)) as [->|?]; [by simplify_map_eq|].
  destruct (decide (k = pie)) as [->|?]; by simplify_map_eq.
Qed.

(** X14. An export of a non-empty row set to a chosen path, with both
    charts made ([ax.pie] accepts the series and every date is a date or
    missing), always returns. When doc.build raises, the exception is
    swallowed: the error message is shown and the files are exactly those
    from before. Otherwise the success message is shown and the only
    change on disk is the document at the chosen path, built from the
    table of the rows and the two images. Nothing else of the state
    changes. *)
Theorem export_outcome (df : list Row) (file_path : string) (st : App)
    (series : list (option Z * num)) :
  df ≠ [] → file_path ≠ "" →
  ax_pie_raises (PdfCharts.pie_data df) = None →
  PdfCharts.time_chart_data parse_datetime df = Ok series →
  file_path ≠ pie_path st → file_path ≠ time_path st →
  PdfExporter.export parse_datetime build_raises df file_path st
  = Returned ()
      match build_raises file_path with
      | Some _ => add_shown export_error st
      | None =>
          add_shown export_success
            (set_files
               (<[file_path := Document (PdfExporter._create_pdf_elements df
                                           (pie_path st) (time_path st))]>) st)
      end.
Proof.
  intros Hdf Hpath Hpie Hseries Hp Ht.
  rewrite (export_run parse_datetime build_raises df file_path st series) by done.
  destruct (time_path_fresh st) as [Ht1%not_elem_of_dom Ht2].
  pose proof (pie_path_fresh st) as Hp1%not_elem_of_dom.
  set (pie := pie_path st) in *. set (time := time_path st) in *.
  clearbody pie time. destruct st as [table stack flag cell value name status msgs disk].
  simpl in Hp1, Ht1.
  destruct (build_raises file_path) as [e|]; simpl;
    cbv beta iota delta
      [set_files add_shown export_error export_success tableWidget undo_stack
       _ignore_change _last_cell _last_value current_filename statusBar shown files].
  - by rewrite (files_after_failed_export _ _ _ _ _ Hp1 Ht1).
  - by rewrite (files_after_export _ _ _ _ _ _ _ Hp1 Ht1 Hp Ht).
Qed.
End ExportOutcome.

Section ExportOutcomeExamples.
Local Existing Instance small_integers.

(** One row exported to report.pdf from the window as it starts, with
    doc.build raising: the error is shown and no file is left. *)
Lemma export_outcome_failed_build :
  PdfExporter.export sample_datetime (λ _, Some IOError)
    [mkRow "rent" "Jan-1" "Expense" 30] "report.pdf" (Window.__init__ one_cell ∅)
  = Returned () (add_shown export_error (Window.__init__ one_cell ∅)).
Proof.
  apply (export_outcome (H := small_integers) sample_datetime (λ _, Some IOError)
           [@mkRow small_integers "rent" "Jan-1" "Expense" 30] "report.pdf"
           (Window.__init__ one_cell ∅) [(Some 1, -30)]).
  - done.
  - done.
  - reflexivity.
  - reflexivity.
  - by vm_compute.
  - by vm_compute.
Defined.
End ExportOutcomeExamples.
(** ** The charts on the typed rows of a grid *)

Section ChartsOutcome.
Context `{Libraries}.
Variable to_numeric : string → option num.
Variable parse_datetime : string → parsed_date.

Lemma get_indexer_nil cols name : name ∉ cols → get_indexer cols name = [].
Proof.
  intros Hn. destruct (get_indexer cols name) as [|c cs] eqn:Hc; [done|].
  destruct Hn. apply (list_elem_of_lookup_2 _ c), elem_of_get_indexer.
  rewrite Hc. by left.
Qed.

Lemma get_indexer_head cols name c cs :
  get_indexer cols name = c :: cs → cols !! c = Some name.
Proof. intros Hc. apply elem_of_get_indexer. rewrite Hc. by left. Qed.

Lemma typed_row_lookup table a r (c : nat) :
  (c < columnCount table)%nat →
  typed_row to_numeric table a r !! c
  = Some (if bool_decide (c = a)
          then match to_numeric (item_text table r c) with
               | Some z => Number z
               | None => NaN
               end
          else Text (item_text table r c)).
Proof.
  intros Hc. unfold typed_row. rewrite list_lookup_fmap, lookup_seq_lt by done. done.
Qed.

(** What a frame returned by the typed extraction is made of. *)
Lemma _table_to_dataframe_frame table frame :
  _table_to_dataframe to_numeric table = Ok (Some frame) →
  ∃ a,
    mapM (M := option) (λ i, horizontalHeaderItem table !! i) (seq 0 (columnCount table))
      = Some (columns frame)
    ∧ get_indexer (columns frame) "Amount" = [a]
    ∧ "Date" ∈ columns frame ∧ "Type" ∈ columns frame
    ∧ values frame ≠ []
    ∧ Forall (λ row, ∃ r z, row = typed_row to_numeric table a r
                            ∧ to_numeric (item_text table r a) = Some z)
             (values frame).
Proof.
  unfold _table_to_dataframe. case_bool_decide; [done|].
  destruct (mapM _ _) as [headers|] eqn:Hheaders; [|done].
  destruct (get_indexer headers "Amount") as [|a [|a' as']] eqn:Ha; try done.
  destruct (get_indexer headers "Date") as [|d ds] eqn:Hd; [done|].
  destruct (get_indexer headers "Type") as [|y ys] eqn:Hy; [done|].
  case_bool_decide as Hrows; [done|]. intros [= <-]. simpl.
  exists a. split; [done|]. split; [done|].
  split; [by eapply list_elem_of_lookup_2, get_indexer_head|].
  split; [by eapply list_elem_of_lookup_2, get_indexer_head|].
  split; [done|].
  assert (Hacol : (a < columnCount table)%nat).
  { apply length_mapM in Hheaders. rewrite length_seq in Hheaders. rewrite Hheaders.
    by eapply lookup_lt_Some, get_indexer_head. }
  apply Forall_forall. intros row Hrow.
  unfold dropna in Hrow. apply list_elem_of_filter in Hrow as [Hna Hrow].
  unfold assign_numeric, table_texts in Hrow. rewrite <- !list_fmap_compose in Hrow.
  apply list_elem_of_fmap in Hrow as (r & -> & _). simpl in Hna.
  rewrite assigned_row in Hna. apply Forall_cons in Hna as [Hna _].
  rewrite typed_row_lookup in Hna by done. rewrite bool_decide_true in Hna by done.
  simpl. rewrite assigned_row.
  destruct (to_numeric (item_text table r a)) as [z|] eqn:Hz; [|done].
  by exists r, z.
Qed.

(** The rows of such a frame are read without an error, given the
    positions of four labels of the header. *)
Lemma ledger_row_typed table headers a r z (d t y : nat) :
  length headers = columnCount table →
  headers !! a = Some "Amount" →
  headers !! d = Some "Description" →
  headers !! t = Some "Date" →
  headers !! y = Some "Type" →
  to_numeric (item_text table r a) = Some z →
  ledger_row d t y a (typed_row to_numeric table a r)
  = Some (mkRow (item_text table r d) (item_text table r t) (item_text table r y) z).
Proof.
  intros Hlen Ha Hd Ht Hy Hz. unfold ledger_row.
  rewrite !typed_row_lookup
    by (rewrite <- Hlen; by eapply lookup_lt_Some).
  rewrite (bool_decide_false (d = a)) by congruence.
  rewrite (bool_decide_false (t = a)) by congruence.
  rewrite (bool_decide_false (y = a)) by congruence.
  rewrite bool_decide_true by done. by rewrite Hz.
Qed.

Lemma ledger_rows_typed table frame :
  _table_to_dataframe to_numeric table = Ok (Some frame) →
  match ledger_rows frame with
  | Ok rows => "Description" ∈ columns frame ∧ length rows = length (values frame)
  | Err e => e = KeyError ∧ ("Description" ∉ columns frame)
  end.
Proof.
  intros Hframe.
  apply _table_to_dataframe_frame in Hframe
    as (a & Hheaders & Ha & HDate & HType & _ & Hrows).
  unfold ledger_rows. rewrite Ha.
  destruct (decide ("Description" ∈ columns frame)) as [HDesc|HDesc].
  - destruct (get_indexer_nonempty _ _ HDesc) as (d & ds & Hd).
    destruct (get_indexer_nonempty _ _ HDate) as (t & ts & Ht).
    destruct (get_indexer_nonempty _ _ HType) as (y & ys & Hy).
    rewrite Hd, Ht, Hy.
    assert (Hsome : is_Some (mapM (M := option) (ledger_row d t y a) (values frame))).
    { apply mapM_is_Some. eapply Forall_impl; [exact Hrows|].
      intros row (r & z & -> & Hz). simpl.
      rewrite (ledger_row_typed table (columns frame) a r z d t y);
        [done| |by eapply get_indexer_head ..|done].
      apply length_mapM in Hheaders. by rewrite length_seq in Hheaders. }
    destruct Hsome as [rows Hmap]. rewrite Hmap. split; [done|].
    by apply length_mapM in Hmap.
  - rewrite (get_indexer_nil _ _ HDesc). done.
Qed.

(** X15. The charts on a grid whose columns all have a header item, with
    labels that differ from one another: either the warning is shown (no
    typed row), or both charts are made, or the dialog raises, and it
    raises in two cases only. With a typed frame whose header has no
    Description column, which the extraction does not ask for and the pie
    chart groups by, it raises KeyError; with a Description column the
    typed rows are always read without an error, and it raises what
    [ax.pie] raises on the grouping summary (a negative sum is refused).
    Nothing but the message list or the status line changes. *)
Theorem charts_raise_for_description_or_pie (st : App) (headers : list string) :
  mapM (M := option) (λ i, horizontalHeaderItem (tableWidget st) !! i)
       (seq 0 (columnCount (tableWidget st))) = Some headers →
  NoDup headers →
  match Window.charts to_numeric parse_datetime st with
  | Returned None st' =>
      st' = add_shown no_data_warning st
      ∧ _table_to_dataframe to_numeric (tableWidget st) = Ok None
  | Returned (Some drawn) st' =>
      st' = set_statusBar "Charts Created" st
      ∧ "Description" ∈ headers
      ∧ ax_pie_raises drawn.1 = None
  | Raised e st' =>
      st' = st
      ∧ ∃ frame,
          _table_to_dataframe to_numeric (tableWidget st) = Ok (Some frame)
          ∧ ((e = KeyError ∧ ("Description" ∉ headers))
             ∨ ("Description" ∈ headers
                ∧ ∃ rows, ledger_rows frame = Ok rows
                          ∧ length rows = length (values frame)
                          ∧ ax_pie_raises (Charts.type_sums rows) = Some e))
  | OutOfFuel => False
  end.
Proof.
  intros Hheaders _. unfold Window.charts, mbind, M_bind, get_state.
  destruct (_table_to_dataframe to_numeric (tableWidget st)) as [[frame|]|e] eqn:Hframe.
  - pose proof (ledger_rows_typed _ _ Hframe) as Hrows.
    apply _table_to_dataframe_frame in Hframe as Hcols.
    destruct Hcols as (a & Hcols & _). rewrite Hheaders in Hcols. injection Hcols as ->.
    destruct (ledger_rows frame) as [rows|e] eqn:Hledger.
    + destruct Hrows as [HDesc Hlen].
      unfold Charts.__init__, Charts._create_pie_chart.
      destruct (ax_pie_raises (Charts.type_sums rows)) as [e|] eqn:Hpie.
      * unfold raise. split; [done|]. exists frame. split; [done|]. right.
        split; [done|]. by exists rows.
      * simpl. by rewrite Hpie.
    + destruct Hrows as [-> ?]. unfold raise. split; [done|]. exists frame. eauto.
  - done.
  - unfold _table_to_dataframe in Hframe. rewrite Hheaders in Hframe.
    case_bool_decide; [done|].
    destruct (get_indexer headers "Amount") as [|a [|a' as']]; try done;
      destruct (get_indexer headers "Date"); try done;
      destruct (get_indexer headers "Type"); try done;
      by case_bool_decide.
Qed.
End ChartsOutcome.

Section ChartsOutcomeExamples.
Local Existing Instance small_integers.

(** A grid of the three columns the typed extraction asks for, with one
    row: the charts raise KeyError. *)
Example charts_raise_without_description_three_columns :
  Window.charts sample_numeric sample_datetime
    (Window.__init__
       (mkTable 1 3 {[ 0%nat := "Date"; 1%nat := "Type"; 2%nat := "Amount" ]}
          {[ (0%nat, 0%nat) := "Jan-1"; (0%nat, 1%nat) := "Expense";
             (0%nat, 2%nat) := "30" ]}) ∅)
  = Raised KeyError
      (Window.__init__
         (mkTable 1 3 {[ 0%nat := "Date"; 1%nat := "Type"; 2%nat := "Amount" ]}
            {[ (0%nat, 0%nat) := "Jan-1"; (0%nat, 1%nat) := "Expense";
               (0%nat, 2%nat) := "30" ]}) ∅).
Proof. reflexivity. Qed.

(** A grid of the four columns whose only row has the amount -30: the
    pie chart refuses the negative sum and the charts raise ValueError. *)
Lemma charts_raise_for_description_or_pie_negative_amount :
  ∃ e st',
    Window.charts sample_numeric sample_datetime
      (Window.__init__
         (mkTable 1 4 four_headers
            {[ (0%nat, 0%nat) := "rent"; (0%nat, 1%nat) := "Jan-1";
               (0%nat, 2%nat) := "Expense"; (0%nat, 3%nat) := "-30" ]}) ∅)
    = Raised e st'
    ∧ e = ValueError
    ∧ st' = Window.__init__
              (mkTable 1 4 four_headers
                 {[ (0%nat, 0%nat) := "rent"; (0%nat, 1%nat) := "Jan-1";
                    (0%nat, 2%nat) := "Expense"; (0%nat, 3%nat) := "-30" ]}) ∅.
Proof.
  pose proof (charts_raise_for_description_or_pie (H := small_integers)
                sample_numeric sample_datetime
                (Window.__init__
                   (mkTable 1 4 four_headers
                      {[ (0%nat, 0%nat) := "rent"; (0%nat, 1%nat) := "Jan-1";
                         (0%nat, 2%nat) := "Expense"; (0%nat, 3%nat) := "-30" ]}) ∅)
                ["Description"; "Date"; "Type"; "Amount"]) as Hcharts.
  destruct (Window.charts _ _ _) as [[drawn|] st'|e st'|] eqn:Hrun.
  - discriminate Hrun.
  - discriminate Hrun.
  - exists e, st'. split; [reflexivity|].
    destruct Hcharts as [Hst _].
    + reflexivity.
    + apply (bool_decide_unpack _). by vm_compute.
    + split; [|exact Hst]. by injection Hrun as <- _.
  - discriminate Hrun.
Defined.
End ChartsOutcomeExamples.
(** ** Saving *)

(** X16. Save As to a chosen path writes the grid (the labels of its
    header and the texts of its cells) to that path and remembers the
    path, touching nothing else; and from every state in which a path is
    remembered, Save writes the grid of that state to the remembered path,
    without consulting the dialog, and changes nothing else but the status
    line: after Save As, every Save goes to the same file. *)
Theorem save_writes_grid_to_remembered_path `{Libraries}
    (path answer : string) (st edited : App) :
  path ≠ "" →
  current_filename edited = Some path →
  (∃ st1 written,
     Window.save_file path st = Returned () st1
     ∧ files st1 = <[path := CsvFile written]> (files st)
     ∧ columns written
       = saved_label (tableWidget st) <$> seq 0 (columnCount (tableWidget st))
     ∧ values written
       = (λ r, (λ c, Text (item_text (tableWidget st) r c))
                 <$> seq 0 (columnCount (tableWidget st)))
           <$> seq 0 (rowCount (tableWidget st))
     ∧ current_filename st1 = Some path
     ∧ editing_state st1 = editing_state st
     ∧ shown st1 = shown st)
  ∧ ∃ written,
      Actions.save answer edited
      = Returned () (set_statusBar "File saved"
                       (set_files (<[path := CsvFile written]>) edited))
      ∧ columns written
        = saved_label (tableWidget edited) <$> seq 0 (columnCount (tableWidget edited))
      ∧ values written
        = (λ r, (λ c, Text (item_text (tableWidget edited) r c))
                  <$> seq 0 (columnCount (tableWidget edited)))
            <$> seq 0 (rowCount (tableWidget edited)).
Proof.
  intros Hpath Hname. split.
  - destruct (get_table_data_grid (tableWidget st)) as [Hcolumns Hvalues].
    exists (set_statusBar "File saved as ..."
              (set_current_filename path
                 (set_files (<[path := CsvFile (CsvReader.get_table_data (tableWidget st))]>)
                    st))),
           (CsvReader.get_table_data (tableWidget st)).
    split; [|by destruct st].
    unfold Window.save_file, CsvReader.save_as.
    rewrite (proj2 (String.eqb_neq _ _)) by done. by destruct st.
  - destruct (get_table_data_grid (tableWidget edited)) as [Hcolumns Hvalues].
    exists (CsvReader.get_table_data (tableWidget edited)). split; [|done].
    unfold Actions.save, CsvReader.quick_save, mbind, M_bind, get_state.
    rewrite Hname. rewrite (proj2 (String.eqb_neq _ _)) by done. by destruct edited.
Qed.

(** X17. A cancelled dialog (the empty answer) still ends in the status
    line of a success: in a window that remembers no file name, Import,
    Save As and Save change nothing but the status line, which then reads
    imported or saved. *)
Theorem cancelled_dialogs_report_success `{Libraries}
    (setItem_raises : QTableWidget → nat → nat → string → option exn)
    (fuel : nat) (st : App) :
  current_filename st = None →
  Actions.import_csv setItem_raises fuel "" st
    = Returned () (set_statusBar "CSV Imported" st)
  ∧ Window.save_file "" st = Returned () (set_statusBar "File saved as ..." st)
  ∧ Actions.save "" st = Returned () (set_statusBar "File saved" st).
Proof.
  intros Hname. split; [done|]. split; [done|].
  unfold Actions.save, CsvReader.quick_save, mbind, M_bind, get_state.
  by rewrite Hname.
Qed.

Section SavingExamples.
Local Existing Instance small_integers.

(** Save As to out.csv from the window as it starts; then, with the cell
    edited to "z", Save writes "z" to out.csv. *)
Lemma save_writes_grid_to_remembered_path_out :
  (∃ st1 written,
     Window.save_file "out.csv" (Window.__init__ one_cell ∅) = Returned () st1
     ∧ files st1 = <["out.csv" := CsvFile written]> ∅
     ∧ columns written = ["Amount"]
     ∧ values written = [[Text "x"]]
     ∧ current_filename st1 = Some "out.csv"
     ∧ editing_state st1 = editing_state (Window.__init__ one_cell ∅)
     ∧ shown st1 = [])
  ∧ ∃ written,
      Actions.save "other.csv"
        (set_tableWidget (store_item 0 0 "z")
           (set_current_filename "out.csv" (Window.__init__ one_cell ∅)))
      = Returned ()
          (set_statusBar "File saved"
             (set_files (<["out.csv" := CsvFile written]>)
                (set_tableWidget (store_item 0 0 "z")
                   (set_current_filename "out.csv" (Window.__init__ one_cell ∅)))))
      ∧ columns written = ["Amount"]
      ∧ values written = [[Text "z"]].
Proof.
  apply (save_writes_grid_to_remembered_path (H := small_integers) "out.csv" "other.csv"
           (Window.__init__ one_cell ∅)
           (set_tableWidget (store_item 0 0 "z")
              (set_current_filename "out.csv" (Window.__init__ one_cell ∅)))).
  - done.
  - reflexivity.
Defined.

(** The three cancelled dialogs in the window as it starts. *)
Lemma cancelled_dialogs_report_success_at_start :
  Actions.import_csv qt_setItem_raises 2 "" (Window.__init__ one_cell ∅)
    = Returned () (set_statusBar "CSV Imported" (Window.__init__ one_cell ∅))
  ∧ Window.save_file "" (Window.__init__ one_cell ∅)
    = Returned () (set_statusBar "File saved as ..." (Window.__init__ one_cell ∅))
  ∧ Actions.save "" (Window.__init__ one_cell ∅)
    = Returned () (set_statusBar "File saved" (Window.__init__ one_cell ∅)).
Proof.
  apply (cancelled_dialogs_report_success (H := small_integers) qt_setItem_raises 2
           (Window.__init__ one_cell ∅)).
  reflexivity.
Defined.
End SavingExamples.
(** ** Grouping counts every row once *)


